(** * pybuild.py: the dependency set and the reconciliation engine

    A shallow embedding of [pybuild.py] and the properties of its
    reconciliation engine [sync_deps].

    The program talks to [pip] through [subprocess.run] and may loop for
    ever ([while True]), so it is modelled as an interaction tree: every
    call to the outside world is an event, [exit] is an event that has no
    answer, and the removal loop is [ITree.iter].  Runs are observed with
    a step-bounded executor against an arbitrary deterministic
    environment, which records the calls made and their answers.

    Conventions of the model:
    - strings are ASCII strings, and [str.lower] folds [A-Z] to [a-z];
    - console output ([print]) is not modelled;
    - the bytes printed by [pip list --format json] are represented by
      the list of objects [json.loads] decodes them to. *)

From Stdlib Require Import List String Ascii ZArith Bool Arith Lia.
From ITree Require Import ITree.
Import ListNotations.
Import ITreeNotations.
Local Open Scope string_scope.
Local Open Scope list_scope.
Local Open Scope itree_scope.

Set Implicit Arguments.

(** ** Strings and lists as Python uses them *)

(** [c.lower()] on one ASCII character. *)
Definition lower_ascii (c : ascii) : ascii :=
  let n := nat_of_ascii c in
  if ((65 <=? n) && (n <=? 90))%nat then ascii_of_nat (n + 32) else c.

(** [s.lower()] *)
Fixpoint lower (s : string) : string :=
  match s with
  | EmptyString => EmptyString
  | String c s' => String (lower_ascii c) (lower s')
  end.

(** [p in l] for a list of strings. *)
Definition mem (p : string) (l : list string) : bool :=
  existsb (String.eqb p) l.

(** [l[i] = v]; the index is always in range where the program uses it. *)
Fixpoint set_item (l : list string) (i : nat) (v : string) : list string :=
  match l, i with
  | [], _ => []
  | _ :: l', 0 => v :: l'
  | x :: l', S i' => x :: set_item l' i' v
  end.

(** [to_lowercase(list)]: the list is rewritten in place, index by index;
    the value is the list after the loop. *)
Definition to_lowercase (names : list string) : list string :=
  fold_left (fun l i => set_item l i (lower (nth i l "")))
            (seq 0 (List.length names)) names.

(** ** The project descriptor *)

Record PyPackageJson := {
  venv_dir : string;
  dependencies : list string
}.

Definition set_dependencies (config : PyPackageJson) (deps : list string) : PyPackageJson :=
  {| venv_dir := venv_dir config; dependencies := deps |}.

(** ** The outside world *)

(** One object of the array printed by [pip list --format json]. *)
Record dist := { name : string; version : string }.

(** What [proc.stdout] holds after [subprocess.run]. *)
Inductive output :=
| NotCaptured                     (* [None]: the stream was not piped *)
| Text (b : string)               (* captured bytes, kept opaque *)
| PackageList (l : list dist).    (* captured bytes that are a JSON array of packages *)

Record proc := { returncode : Z; stdout : output }.

(** [json.loads(stdout)]; [None] stands for the exception it raises. *)
Definition json_loads (o : output) : option (list dist) :=
  match o with
  | PackageList l => Some l
  | _ => None
  end.

(** Calls answered by the environment. *)
Variant sysE : Type -> Type :=
| IsDir (path : string) : sysE bool
| SpRun (cmd : list string) (capture_stdout : bool) : sysE proc
| WriteFile (path : string) (data : output) : sysE unit
| LoadJson : sysE (option PyPackageJson)
| SaveJson (config : PyPackageJson) : sysE unit.

(** Ways the interpreter stops: [exit(code)] and an uncaught exception. *)
Variant haltE : Type -> Type :=
| Exit (code : Z) : haltE void
| Raise (exn : string) : haltE void.

Definition pyE : Type -> Type := sysE +' haltE.

Definition sys {T} (e : sysE T) : itree pyE T := ITree.trigger (inl1 e).

Definition halt {T} (e : haltE void) : itree pyE T :=
  Vis (inr1 e) (fun v : void => match v with end).

Definition exit {T} (code : Z) : itree pyE T := halt (Exit code).
Definition raise {T} (exn : string) : itree pyE T := halt (Raise exn).

(** ** The program *)

(** [load_pypackagejson()]: the environment answers [None] when the file
    is missing or its contents are rejected; both paths end in [exit(-1)]. *)
Definition load_pypackagejson : itree pyE PyPackageJson :=
  r <- sys LoadJson ;;
  match r with
  | Some config => Ret config
  | None => exit (-1)
  end.

Definition save_pypackagejson (config : PyPackageJson) : itree pyE unit :=
  sys (SaveJson config).

(** [run(cmd, can_fail, capture_stdout)] *)
Definition run (cmd : list string) (can_fail capture_stdout : bool)
  : itree pyE (Z * output) :=
  proc <- sys (SpRun cmd capture_stdout) ;;
  (if negb can_fail
   then (if negb (returncode proc =? 0)%Z then exit (-1) else Ret tt)
   else Ret tt) ;;
  Ret (returncode proc, stdout proc).

Definition create_venv (config : PyPackageJson) : itree pyE unit :=
  let venv_dir := venv_dir config in
  run ["python3"; "-m"; "venv"; venv_dir] false false ;;
  Ret tt.

Definition ensure_venv (config : PyPackageJson) (log_if_exists : bool)
  : itree pyE unit :=
  let venv_dir := venv_dir config in
  d <- sys (IsDir venv_dir) ;;
  if negb d then create_venv config
  else Ret tt.

Definition pip_bin (config : PyPackageJson) : string :=
  venv_dir config ++ "/bin/pip".

Definition base_packages : list string := ["pip"; "setuptools"].

Definition pip_list_cmd (config : PyPackageJson) : list string :=
  [pip_bin config; "list"; "--not-required"; "--format"; "json";
   "--disable-pip-version-check"].

(** The list comprehension of [pip_get_installed]. *)
Definition installed_names (uninstall_base_packages : bool)
    (installed_json : list dist) : list string :=
  map (fun x => lower (name x))
      (filter (fun x => negb uninstall_base_packages
                        || negb (mem (name x) base_packages))
              installed_json).

Definition pip_get_installed (config : PyPackageJson)
    (uninstall_base_packages : bool) : itree pyE (list string) :=
  '(_, stdout) <- run (pip_list_cmd config) false true ;;
  match json_loads stdout with
  | None => raise "JSONDecodeError"
  | Some installed_json =>
      Ret (installed_names uninstall_base_packages installed_json)
  end.

Definition pip_install_cmd (config : PyPackageJson) (packages : list string)
  : list string :=
  [pip_bin config; "install"; "--disable-pip-version-check"] ++ packages.

Definition pip_install (config : PyPackageJson) (packages : list string)
  : itree pyE unit :=
  run (pip_install_cmd config packages) false false ;;
  Ret tt.

Definition pip_uninstall_cmd (config : PyPackageJson) (packages : list string)
  : list string :=
  [pip_bin config; "uninstall"; "--disable-pip-version-check"] ++ packages.

Definition pip_uninstall (config : PyPackageJson) (packages : list string)
  : itree pyE unit :=
  run (pip_uninstall_cmd config packages) false false ;;
  Ret tt.

Definition pip_freeze_cmd (config : PyPackageJson) : list string :=
  [pip_bin config; "freeze"].

Definition pip_freeze (config : PyPackageJson) : itree pyE unit :=
  '(_, stdout) <- run (pip_freeze_cmd config) false true ;;
  sys (WriteFile "requirements.txt" stdout).

(** The two diffs of [sync_deps]: [for p in deps: if p not in installed]
    and [for p in installed: if p not in deps]. *)
Definition to_install (deps installed : list string) : list string :=
  filter (fun p => negb (mem p installed)) deps.

Definition to_uninstall (deps installed : list string) : list string :=
  filter (fun p => negb (mem p deps)) installed.

(** One turn of the [while True] loop: [inr tt] is [break]. *)
Definition removal_turn (config : PyPackageJson) (deps : list string)
  : itree pyE (unit + unit) :=
  installed <- pip_get_installed config true ;;
  let to_uninstall := to_uninstall deps installed in
  if (List.length to_uninstall =? 0)%nat then Ret (inr tt)
  else pip_uninstall config to_uninstall ;; Ret (inl tt).

Definition sync_deps (config : PyPackageJson) : itree pyE unit :=
  ensure_venv config false ;;
  let deps := dependencies config in
  installed <- pip_get_installed config false ;;
  let to_install := to_install deps installed in
  (if (0 <? List.length to_install)%nat then pip_install config to_install
   else Ret tt) ;;
  ITree.iter (fun _ : unit => removal_turn config deps) tt ;;
  pip_freeze config.

(** The loop of [cmd_add]: [for p in packages: if p not in deps: deps.append(p)]. *)
Definition add_dependencies (deps packages : list string) : list string :=
  fold_left (fun deps p => if negb (mem p deps) then deps ++ [p] else deps)
            packages deps.

Definition cmd_add (args : list string) : itree pyE unit :=
  if (List.length args =? 0)%nat then exit (-1)
  else
    config <- load_pypackagejson ;;
    let packages := to_lowercase args in
    let config :=
      set_dependencies config (add_dependencies (dependencies config) packages) in
    save_pypackagejson config ;;
    sync_deps config.

(** The comprehension of [cmd_rm]: [[p for p in deps if p not in packages]]. *)
Definition rm_dependencies (deps packages : list string) : list string :=
  filter (fun p => negb (mem p packages)) deps.

Definition cmd_rm (args : list string) : itree pyE unit :=
  if (List.length args =? 0)%nat then exit (-1)
  else
    config <- load_pypackagejson ;;
    let packages := to_lowercase args in
    let config :=
      set_dependencies config (rm_dependencies (dependencies config) packages) in
    save_pypackagejson config ;;
    sync_deps config.

(** [cmd_sync] prints a complaint about extra options and goes on. *)
Definition cmd_sync (args : list string) : itree pyE unit :=
  config <- load_pypackagejson ;;
  sync_deps config.

(** ** Runs against an environment *)

(** A call as it is recorded: the request and the answer it got. *)
Inductive call :=
| CallIsDir (path : string) (ans : bool)
| CallRun (cmd : list string) (capture_stdout : bool) (p : proc)
| CallWrite (path : string) (data : output)
| CallLoad (ans : option PyPackageJson)
| CallSave (config : PyPackageJson).

Definition record_call {T} (e : sysE T) : T -> call :=
  match e in sysE T return T -> call with
  | IsDir path => CallIsDir path
  | SpRun cmd capture => CallRun cmd capture
  | WriteFile path data => fun _ => CallWrite path data
  | LoadJson => CallLoad
  | SaveJson config => fun _ => CallSave config
  end.

(** How far a run got. *)
Inductive status (R : Type) :=
| Returned (r : R) (fuel_left : nat)   (* the function returned [r] *)
| Exits (code : Z)                     (* [exit(code)] was called *)
| Raises (exn : string)                (* an exception went uncaught *)
| Running.                             (* still running when the step bound was reached *)
Arguments Exits {R} code.
Arguments Raises {R} exn.
Arguments Running {R}.

Record result (R W : Type) := {
  how : status R;
  world : W;
  calls : list call
}.

(** A deterministic environment on states [W]: every call gets an answer
    and a next state. *)
Definition env (W : Type) : Type := forall T, sysE T -> W -> T * W.

Definition after {R W} (c : call) (r : result R W) : result R W :=
  {| how := how r; world := world r; calls := c :: calls r |}.

(** [exec h fuel t w] runs [t] from [w] for at most [fuel] steps (calls to
    the environment and loop back-edges).  Returning and halting take no
    step, so a run is [Running] only if it has something left to do. *)
Fixpoint exec {R W} (h : env W) (fuel : nat) (t : itree pyE R) (w : W)
  : result R W :=
  match observe t with
  | RetF r => {| how := Returned r fuel; world := w; calls := [] |}
  | TauF t' =>
      match fuel with
      | O => {| how := Running; world := w; calls := [] |}
      | S n => exec h n t' w
      end
  | VisF e k =>
      match e with
      | inl1 e' =>
          match fuel with
          | O => {| how := Running; world := w; calls := [] |}
          | S n =>
              let (a, w') := h _ e' w in
              after (record_call e' a) (exec h n (k a) w')
          end
      | inr1 (Exit code) => {| how := Exits code; world := w; calls := [] |}
      | inr1 (Raise exn) => {| how := Raises exn; world := w; calls := [] |}
      end
  end.

(** The exit status the operating system sees. *)
Definition exit_status {R} (s : status R) : option Z :=
  match s with
  | Returned _ _ => Some 0%Z
  | Exits code => Some (code mod 256)%Z
  | Raises _ => Some 1%Z
  | Running => None
  end.

(** Files as the program leaves them: the writes of a run, replayed in
    order over the files that were there before. *)
Definition files : Type := string -> option output.

Definition write_file (fs : files) (path : string) (data : output) : files :=
  fun p => if String.eqb p path then Some data else fs p.

Definition files_after (tr : list call) (fs : files) : files :=
  fold_left (fun fs c =>
               match c with
               | CallWrite path data => write_file fs path data
               | _ => fs
               end) tr fs.

(** Classifying recorded calls by the command they ran. *)
Definition subcommand (c : call) : string :=
  match c with
  | CallRun (_ :: sub :: _) _ _ => sub
  | _ => ""
  end.

Definition is_list (c : call) : bool := String.eqb (subcommand c) "list".
Definition is_install (c : call) : bool := String.eqb (subcommand c) "install".
Definition is_uninstall (c : call) : bool := String.eqb (subcommand c) "uninstall".
Definition is_freeze (c : call) : bool := String.eqb (subcommand c) "freeze".

Definition is_write (c : call) : bool :=
  match c with
  | CallWrite _ _ => true
  | _ => false
  end.

(** A command that came back with a non-zero status. *)
Definition failed (c : call) : bool :=
  match c with
  | CallRun _ _ p => negb (returncode p =? 0)%Z
  | _ => false
  end.

(** ** Environments used as examples *)

(** A scripted environment: the state is the list of answers still to be
    given to [subprocess.run]; when the script is over every command
    succeeds and prints an empty package list.  The directory exists. *)
Definition scripted : env (list proc) :=
  fun T e =>
    match e in sysE T return list proc -> T * list proc with
    | IsDir _ => fun w => (true, w)
    | SpRun _ _ => fun w =>
        match w with
        | [] => ({| returncode := 0; stdout := PackageList [] |}, [])
        | p :: w' => (p, w')
        end
    | WriteFile _ _ => fun w => (tt, w)
    | LoadJson => fun w => (None, w)
    | SaveJson _ => fun w => (tt, w)
    end.

Definition pkgs (names : list string) : output :=
  PackageList (map (fun n => {| name := n; version := "1.0" |}) names).

Definition ok (o : output) : proc := {| returncode := 0; stdout := o |}.

(** ** Sequencing of runs *)

(** [then_ r f]: the run [r] followed, if it returned, by the run [f]
    makes from its value, its remaining steps and its final state. *)
Definition then_ {A B W} (r : result A W) (f : A -> nat -> W -> result B W)
  : result B W :=
  match how r with
  | Returned a n =>
      let r' := f a n (world r) in
      {| how := how r'; world := world r'; calls := calls r ++ calls r' |}
  | Exits c => {| how := Exits c; world := world r; calls := calls r |}
  | Raises x => {| how := Raises x; world := world r; calls := calls r |}
  | Running => {| how := Running; world := world r; calls := calls r |}
  end.

(** One step of [exec], on the observed head of the tree. *)
Definition exec_node {R W} (h : env W) (fuel : nat) (ot : itree' pyE R) (w : W)
  : result R W :=
  match ot with
  | RetF r => {| how := Returned r fuel; world := w; calls := [] |}
  | TauF t' =>
      match fuel with
      | O => {| how := Running; world := w; calls := [] |}
      | S n => exec h n t' w
      end
  | VisF e k =>
      match e with
      | inl1 e' =>
          match fuel with
          | O => {| how := Running; world := w; calls := [] |}
          | S n =>
              let (a, w') := h _ e' w in
              after (record_call e' a) (exec h n (k a) w')
          end
      | inr1 (Exit code) => {| how := Exits code; world := w; calls := [] |}
      | inr1 (Raise exn) => {| how := Raises exn; world := w; calls := [] |}
      end
  end.

(** ** The shape of a reconciliation run

    The calls of a run, phase by phase, as the design describes them.
    Each phase is a relation between the calls made in it and the way
    it ended. *)

Inductive ending :=
| Completed                 (* the phase ran to its end *)
| Aborted (code : Z)        (* [exit(code)] *)
| Crashed (exn : string)    (* uncaught exception *)
| Unfinished.               (* cut off by the step bound *)

Definition ending_of {R} (s : status R) : ending :=
  match s with
  | Returned _ _ => Completed
  | Exits code => Aborted code
  | Raises exn => Crashed exn
  | Running => Unfinished
  end.

Definition venv_cmd (config : PyPackageJson) : list string :=
  ["python3"; "-m"; "venv"; venv_dir config].

(** [ensure_venv]: the directory is looked up and created if missing. *)
Inductive venv_calls (config : PyPackageJson) : list call -> ending -> Prop :=
| venv_unasked :
    venv_calls config [] Unfinished
| venv_exists :
    venv_calls config [CallIsDir (venv_dir config) true] Completed
| venv_uncreated :
    venv_calls config [CallIsDir (venv_dir config) false] Unfinished
| venv_created p :
    returncode p = 0%Z ->
    venv_calls config
      [CallIsDir (venv_dir config) false; CallRun (venv_cmd config) false p]
      Completed
| venv_failed p :
    returncode p <> 0%Z ->
    venv_calls config
      [CallIsDir (venv_dir config) false; CallRun (venv_cmd config) false p]
      (Aborted (-1)).

(** Install phase: one inspection that keeps the base packages, the diff
    against the declared list, and at most one batch install. *)
Inductive install_calls (config : PyPackageJson) : list call -> ending -> Prop :=
| install_unasked :
    install_calls config [] Unfinished
| install_inspect_failed p :
    returncode p <> 0%Z ->
    install_calls config [CallRun (pip_list_cmd config) true p] (Aborted (-1))
| install_inspect_garbled p :
    returncode p = 0%Z -> json_loads (stdout p) = None ->
    install_calls config [CallRun (pip_list_cmd config) true p]
      (Crashed "JSONDecodeError")
| install_nothing p js :
    returncode p = 0%Z -> json_loads (stdout p) = Some js ->
    to_install (dependencies config) (installed_names false js) = [] ->
    install_calls config [CallRun (pip_list_cmd config) true p] Completed
| install_pending p js :
    returncode p = 0%Z -> json_loads (stdout p) = Some js ->
    to_install (dependencies config) (installed_names false js) <> [] ->
    install_calls config [CallRun (pip_list_cmd config) true p] Unfinished
| install_done p js q :
    returncode p = 0%Z -> json_loads (stdout p) = Some js ->
    to_install (dependencies config) (installed_names false js) <> [] ->
    returncode q = 0%Z ->
    install_calls config
      [CallRun (pip_list_cmd config) true p;
       CallRun (pip_install_cmd config
                  (to_install (dependencies config) (installed_names false js)))
               false q]
      Completed
| install_failed p js q :
    returncode p = 0%Z -> json_loads (stdout p) = Some js ->
    to_install (dependencies config) (installed_names false js) <> [] ->
    returncode q <> 0%Z ->
    install_calls config
      [CallRun (pip_list_cmd config) true p;
       CallRun (pip_install_cmd config
                  (to_install (dependencies config) (installed_names false js)))
               false q]
      (Aborted (-1)).

(** Removal phase: rounds of one inspection without the base packages and
    one batch uninstall of the undeclared names it shows, until an
    inspection shows none. *)
Inductive removal_calls (config : PyPackageJson) : list call -> ending -> Prop :=
| removal_unasked :
    removal_calls config [] Unfinished
| removal_inspect_failed p :
    returncode p <> 0%Z ->
    removal_calls config [CallRun (pip_list_cmd config) true p] (Aborted (-1))
| removal_inspect_garbled p :
    returncode p = 0%Z -> json_loads (stdout p) = None ->
    removal_calls config [CallRun (pip_list_cmd config) true p]
      (Crashed "JSONDecodeError")
| removal_fixpoint p js :
    returncode p = 0%Z -> json_loads (stdout p) = Some js ->
    to_uninstall (dependencies config) (installed_names true js) = [] ->
    removal_calls config [CallRun (pip_list_cmd config) true p] Completed
| removal_pending p js :
    returncode p = 0%Z -> json_loads (stdout p) = Some js ->
    to_uninstall (dependencies config) (installed_names true js) <> [] ->
    removal_calls config [CallRun (pip_list_cmd config) true p] Unfinished
| removal_failed p js q :
    returncode p = 0%Z -> json_loads (stdout p) = Some js ->
    to_uninstall (dependencies config) (installed_names true js) <> [] ->
    returncode q <> 0%Z ->
    removal_calls config
      [CallRun (pip_list_cmd config) true p;
       CallRun (pip_uninstall_cmd config
                  (to_uninstall (dependencies config) (installed_names true js)))
               false q]
      (Aborted (-1))
| removal_round p js q rest e :
    returncode p = 0%Z -> json_loads (stdout p) = Some js ->
    to_uninstall (dependencies config) (installed_names true js) <> [] ->
    returncode q = 0%Z ->
    removal_calls config rest e ->
    removal_calls config
      (CallRun (pip_list_cmd config) true p ::
       CallRun (pip_uninstall_cmd config
                  (to_uninstall (dependencies config) (installed_names true js)))
               false q :: rest)
      e.

(** Snapshot phase: [pip freeze], and its output written as it is. *)
Inductive snapshot_calls (config : PyPackageJson) : list call -> ending -> Prop :=
| snapshot_unasked :
    snapshot_calls config [] Unfinished
| snapshot_failed p :
    returncode p <> 0%Z ->
    snapshot_calls config [CallRun (pip_freeze_cmd config) true p] (Aborted (-1))
| snapshot_unwritten p :
    returncode p = 0%Z ->
    snapshot_calls config [CallRun (pip_freeze_cmd config) true p] Unfinished
| snapshot_written p :
    returncode p = 0%Z ->
    snapshot_calls config
      [CallRun (pip_freeze_cmd config) true p;
       CallWrite "requirements.txt" (stdout p)]
      Completed.

(** [chain P Q]: phase [P], and phase [Q] after it if [P] completed. *)
Inductive chain (P Q : list call -> ending -> Prop) : list call -> ending -> Prop :=
| chain_stop t e : P t e -> e <> Completed -> chain P Q t e
| chain_go t u e : P t Completed -> Q u e -> chain P Q (t ++ u) e.

Definition sync_calls (config : PyPackageJson) : list call -> ending -> Prop :=
  chain (venv_calls config)
    (chain (install_calls config)
       (chain (removal_calls config) (snapshot_calls config))).

(** The same run with [k] more steps left unspent. *)
Definition spare {R W} (k : nat) (r : result R W) : result R W :=
  {| how := match how r with
            | Returned a n => Returned a (n + k)
            | s => s
            end;
     world := world r;
     calls := calls r |}.

(** ** The dependency set, in the words of the design *)

(** Duplicates dropped, the first occurrence of each name kept. *)
Fixpoint first_seen (l : list string) : list string :=
  match l with
  | [] => []
  | x :: l' => x :: filter (fun y => negb (String.eqb y x)) (first_seen l')
  end.

(** A dependency set as the data model has it: folded names, no duplicates. *)
Definition normalized (deps : list string) : Prop :=
  NoDup deps /\ Forall (fun p => lower p = p) deps.

(** The entries of [deps] that stand for package [p], case ignored. *)
Definition entries_for (p : string) (deps : list string) : list string :=
  filter (fun e => String.eqb (lower e) (lower p)) deps.

(** ** The phases of a run, side by side *)

(** The way a run of four phases ends: as its first phase that did not
    complete, or as its last phase. *)
Definition overall (e_venv e_install e_removal e_snapshot : ending) : ending :=
  match e_venv, e_install, e_removal with
  | Completed, Completed, Completed => e_snapshot
  | Completed, Completed, _ => e_removal
  | Completed, _, _ => e_install
  | _, _, _ => e_venv
  end.

(** [phases config tr e]: the calls [tr] are those of the four phases in
    order, a phase being entered only when the one before completed. *)
Inductive phases (config : PyPackageJson) : list call -> ending -> Prop :=
| phases_intro venv inspect loop snapshot e_venv e_install e_removal e_snapshot :
    venv_calls config venv e_venv ->
    install_calls config inspect e_install ->
    removal_calls config loop e_removal ->
    snapshot_calls config snapshot e_snapshot ->
    (e_venv <> Completed -> inspect = [] /\ e_install = Unfinished) ->
    (e_venv <> Completed \/ e_install <> Completed ->
     loop = [] /\ e_removal = Unfinished) ->
    (e_venv <> Completed \/ e_install <> Completed \/ e_removal <> Completed ->
     snapshot = [] /\ e_snapshot = Unfinished) ->
    phases config (venv ++ inspect ++ loop ++ snapshot)
                  (overall e_venv e_install e_removal e_snapshot).

(** No command of [t] failed, except, when the phase ended in [exit],
    the last one; the exit code is then [-1]. *)
Definition fails_last (t : list call) (e : ending) : Prop :=
  match e with
  | Aborted code =>
      code = (-1)%Z /\
      exists l c, t = l ++ [c] /\ existsb failed l = false /\ failed c = true
  | _ => existsb failed t = false
  end.


(** ** Convergence *)

(** What the last inspection of a run reported. *)
Definition last_report (tr : list call) : list dist :=
  fold_left (fun seen c =>
               match c with
               | CallRun _ _ p =>
                   if is_list c then
                     match json_loads (stdout p) with
                     | Some js => js
                     | None => seen
                     end
                   else seen
               | _ => seen
               end) tr [].

(** The installed top-level packages at the end of a run, base packages
    left out, as the removal loop reads them off the last inspection. *)
Definition installed_at_end (tr : list call) : list string :=
  installed_names true (last_report tr).

(** The installed set equals the declared set. *)
Definition converged (config : PyPackageJson) (tr : list call) : Prop :=
  forall x, In x (installed_at_end tr) <-> In x (dependencies config).

(** No undeclared package is left. *)
Definition nothing_undeclared (config : PyPackageJson) (tr : list call) : Prop :=
  forall x, In x (installed_at_end tr) -> In x (dependencies config).

(** ** Upper case *)

Definition is_upper (c : ascii) : bool :=
  let n := nat_of_ascii c in ((65 <=? n) && (n <=? 90))%nat.

(** The name contains an uppercase character. *)
Fixpoint has_upper (s : string) : bool :=
  match s with
  | EmptyString => false
  | String c s' => is_upper c || has_upper s'
  end.

(** The number of uninstall calls in a run. *)
Definition uninstalls (tr : list call) : nat :=
  List.length (filter is_uninstall tr).

(** ** Example projects and scripts *)

Definition failure : proc := {| returncode := 1; stdout := NotCaptured |}.

(** A project that declares a package together with one of the packages
    it requires. *)
Definition requests_project : PyPackageJson :=
  {| venv_dir := ".venv"; dependencies := ["requests"; "urllib3"] |}.

(** A fresh virtual environment; both packages get installed, and since
    [urllib3] is required by [requests], [pip list --not-required] does
    not show it. *)
Definition requests_script : list proc :=
  [ok (pkgs ["pip"; "setuptools"]);
   ok NotCaptured;
   ok (pkgs ["pip"; "setuptools"; "requests"]);
   ok (Text "requests==2.32.3")].

(** The same project, with an install that fails. *)
Definition broken_install_script : list proc :=
  [ok (pkgs ["pip"; "setuptools"]); failure].

(** A project whose environment already holds what it declares. *)
Definition flask_project : PyPackageJson :=
  {| venv_dir := "env"; dependencies := ["flask"] |}.

Definition flask_script : list proc :=
  [ok (pkgs ["Flask"; "pip"; "setuptools"]);
   ok (pkgs ["Flask"; "pip"; "setuptools"]);
   ok (Text "Flask==3.0.0")].

(** A project whose package manager reports itself with a capital. *)
Definition capital_project : PyPackageJson :=
  {| venv_dir := ".venv"; dependencies := ["requests"] |}.

Definition capital_script : list proc :=
  [ok (pkgs ["Pip"; "requests"; "setuptools"]);
   ok (pkgs ["Pip"; "requests"; "setuptools"]);
   ok NotCaptured;
   ok (pkgs ["requests"; "setuptools"]);
   ok (Text "requests==2.32.3")].

(** An environment in which uninstalling does nothing: every command
    succeeds, and every inspection shows the same undeclared package. *)
Definition stubborn : env unit :=
  fun T e =>
    match e in sysE T return unit -> T * unit with
    | IsDir _ => fun w => (true, w)
    | SpRun _ capture_stdout => fun w =>
        (ok (if capture_stdout then pkgs ["requests"; "leftover"]
             else NotCaptured), w)
    | WriteFile _ _ => fun w => (tt, w)
    | LoadJson => fun w => (None, w)
    | SaveJson _ => fun w => (tt, w)
    end.

Definition stubborn_project : PyPackageJson :=
  {| venv_dir := ".venv"; dependencies := ["requests"] |}.

(** A project whose descriptor was written by hand, with a capital. *)
Definition handwritten_project : PyPackageJson :=
  {| venv_dir := ".venv"; dependencies := ["Flask"] |}.

Definition handwritten_script : list proc :=
  [ok (pkgs ["Flask"; "pip"; "setuptools"]);
   ok NotCaptured;
   ok (pkgs ["Flask"; "pip"; "setuptools"]);
   ok NotCaptured;
   ok (pkgs ["pip"; "setuptools"]);
   ok (Text "")].

(** The two scenarios of the design: a missing package, and an orphan
    left behind under a declared one. *)
Definition missing_project : PyPackageJson :=
  {| venv_dir := ".venv"; dependencies := ["requests"] |}.

Definition missing_script : list proc :=
  [ok (pkgs ["pip"; "setuptools"]);
   ok NotCaptured;
   ok (pkgs ["pip"; "requests"; "setuptools"]);
   ok (Text "requests==2.32.3")].

Definition orphan_project : PyPackageJson :=
  {| venv_dir := ".venv"; dependencies := ["a"] |}.

Definition orphan_script : list proc :=
  [ok (pkgs ["a"; "b"; "pip"; "setuptools"]);
   ok (pkgs ["a"; "b"; "pip"; "setuptools"]);
   ok NotCaptured;
   ok (pkgs ["a"; "pip"; "setuptools"]);
   ok (Text "a==1.0")].

(** ** The rest of the program *)

Definition DEFAULT_CONFIG : PyPackageJson :=
  {| venv_dir := ".venv"; dependencies := [] |}.

(** [cmd_init(args)].  [pypackagejson_exists] is what
    [os.path.isfile("pypackage.json")] answers; the default descriptor is
    saved with the directory given. *)
Definition cmd_init (pypackagejson_exists : bool) (args : list string)
  : itree pyE unit :=
  if (1 <? List.length args)%nat then exit (-1)
  else if (List.length args <? 1)%nat then exit (-1)
  else
    let venv_dir := nth 0 args "" in
    (if pypackagejson_exists then Ret tt
     else
       let config :=
         {| venv_dir := venv_dir;
            dependencies := dependencies DEFAULT_CONFIG |} in
       save_pypackagejson config) ;;
    config <- load_pypackagejson ;;
    ensure_venv config true ;;
    sync_deps config.

(** [main()], on [args = sys.argv[1:]]. *)
Definition main (pypackagejson_exists : bool) (args : list string)
  : itree pyE unit :=
  match args with
  | [] => exit 0
  | cmd :: rest =>
      if String.eqb cmd "init" then cmd_init pypackagejson_exists rest
      else if String.eqb cmd "add" then cmd_add rest
      else if String.eqb cmd "rm" then cmd_rm rest
      else if String.eqb cmd "sync" then cmd_sync rest
      else Ret tt
  end.

(** ** Reading the descriptor *)

(** A decoded JSON document; an object is given by its members, each key
    once. *)
#[warnings="-register-all"]
Inductive json :=
| JNull
| JBool (b : bool)
| JNumber (n : Z)
| JString (s : string)
| JArray (items : list json)
| JObject (members : list (string * json)).

(** [d.get(key)]: the value, or [None], which is also what [null]
    decodes to. *)
Fixpoint dict_get (members : list (string * json)) (key : string) : json :=
  match members with
  | [] => JNull
  | (k, v) :: rest => if String.eqb k key then v else dict_get rest key
  end.

(** An entry of [errors]: a plain message, or a key with its message. *)
Inductive load_error :=
| Plain (msg : string)
| AtKey (key msg : string).

(** How [load_pypackagejson] ends. *)
Inductive load_result :=
| Config (venv_dir dependencies : json)   (* returned, as a descriptor *)
| NotFound                                (* no file: [exit(-1)] *)
| Invalid (errors : list load_error).     (* reported, then [exit(-1)] *)

(** The checks of [load_pypackagejson] on the decoded file. *)
Definition check_pypackagejson (pypackagejson : json) : load_result :=
  match pypackagejson with
  | JObject members =>
      let venv_dir := dict_get members "venv_dir" in
      let errors :=
        match venv_dir with
        | JNull => [AtKey "venv_dir" "not found"]
        | JString _ => []
        | _ => [AtKey "venv_dir" "must be a string"]
        end in
      let dependencies := dict_get members "dependencies" in
      let '(dependencies, errors) :=
        match dependencies with
        | JNull => (JArray [], errors)
        | JArray _ => (dependencies, errors)
        | _ => (dependencies, errors ++ [AtKey "dependencies" "must be a list"])
        end in
      if negb (List.length errors =? 0)%nat then Invalid errors
      else Config venv_dir dependencies
  | _ => Invalid [Plain "Invalid contents."]
  end.

(** [load_pypackagejson] on what [open] and [json.load] give: [None] when
    there is no file. *)
Definition load_from (file : option json) : load_result :=
  match file with
  | None => NotFound
  | Some pypackagejson => check_pypackagejson pypackagejson
  end.

(** What [json.dump(config, f)] writes, decoded again. *)
Definition dump (config : PyPackageJson) : json :=
  JObject [("venv_dir", JString (venv_dir config));
           ("dependencies", JArray (map JString (dependencies config)))].

(** ** More about calls and runs *)

(** A call of [pip]. *)
Definition is_pip (c : call) : bool :=
  is_list c || is_install c || is_uninstall c || is_freeze c.

(** A run of [python3 -m venv]. *)
Definition is_venv (c : call) : bool := String.eqb (subcommand c) "-m".

(** A write of the descriptor. *)
Definition is_save (c : call) : bool :=
  match c with
  | CallSave _ => true
  | _ => false
  end.

(** The package names a [pip install] or [pip uninstall] was given. *)
Definition batch_of (c : call) : list string :=
  match c with
  | CallRun cmd _ _ => skipn 3 cmd
  | _ => []
  end.

(** An inspection that succeeded and printed what [json.loads] rejects. *)
Definition garbled (c : call) : bool :=
  match c with
  | CallRun _ _ p =>
      is_list c && (returncode p =? 0)%Z
      && match json_loads (stdout p) with
         | Some _ => false
         | None => true
         end
  | _ => false
  end.

(** No inspection of [t] was garbled, except, when the phase ended in an
    uncaught exception, the last call. *)
Definition garbled_last (t : list call) (e : ending) : Prop :=
  match e with
  | Crashed exn =>
      exn = "JSONDecodeError" /\
      exists l c, t = l ++ [c] /\ existsb garbled l = false /\ garbled c = true
  | _ => existsb garbled t = false
  end.

(** An install is of declared names, an uninstall of undeclared ones. *)
Definition follows_declaration (deps : list string) (c : call) : Prop :=
  (is_install c = true -> forall x, In x (batch_of c) -> In x deps)
  /\ (is_uninstall c = true -> forall x, In x (batch_of c) -> ~ In x deps).

(** The calls [sync_deps] may make for a project: looking up its virtual
    environment, creating it, running the [pip] inside it, and writing
    the lockfile. *)
Definition confined (config : PyPackageJson) (c : call) : Prop :=
  match c with
  | CallIsDir path _ => path = venv_dir config
  | CallRun cmd _ _ => cmd = venv_cmd config \/ hd "" cmd = pip_bin config
  | CallWrite path _ => path = "requirements.txt"
  | CallLoad _ => False
  | CallSave _ => False
  end.

(** The virtual environment was found, or made, at the head of [tr]. *)
Definition venv_ready (config : PyPackageJson) (tr : list call) : Prop :=
  exists rest,
    tr = CallIsDir (venv_dir config) true :: rest
    \/ exists p, returncode p = 0%Z
                 /\ tr = CallIsDir (venv_dir config) false
                         :: CallRun (venv_cmd config) false p :: rest.

(** The inspections of [tr] show base packages under their own names
    only. *)
Definition base_names_exact (tr : list call) : Prop :=
  forall cmd capture p js d,
    In (CallRun cmd capture p) tr -> is_list (CallRun cmd capture p) = true ->
    json_loads (stdout p) = Some js -> In d js ->
    In (lower (name d)) base_packages -> In (name d) base_packages.

(** [t] returns [r] from [w], leaving [w'], when given steps enough. *)
Definition returns {R W} (h : env W) (t : itree pyE R) (w : W) (r : R) (w' : W)
  : Prop :=
  exists f, forall j,
    how (exec h (f + j) t w) = Returned r j /\ world (exec h (f + j) t w) = w'.

(** [t] comes to return from [w], given steps enough. *)
Definition terminates {R W} (h : env W) (t : itree pyE R) (w : W) : Prop :=
  exists r w', returns h t w r w'.

(** Every command succeeds. *)
Definition all_succeed {W} (h : env W) : Prop :=
  forall cmd capture w, returncode (fst (h _ (SpRun cmd capture) w)) = 0%Z.

(** Every inspection can be decoded. *)
Definition decodable {W} (h : env W) (config : PyPackageJson) : Prop :=
  forall w,
    json_loads (stdout (fst (h _ (SpRun (pip_list_cmd config) true) w))) <> None.

(** Every removal round brings the measure [m] of the environment down. *)
Definition rounds_progress {W} (h : env W) (config : PyPackageJson)
    (m : W -> nat) : Prop :=
  forall w js,
    json_loads (stdout (fst (h _ (SpRun (pip_list_cmd config) true) w))) = Some js ->
    let w1 := snd (h _ (SpRun (pip_list_cmd config) true) w) in
    let batch := to_uninstall (dependencies config) (installed_names true js) in
    batch <> [] ->
    m (snd (h _ (SpRun (pip_uninstall_cmd config batch) false) w1)) < m w.

(** ** More example environments *)

(** The scripted environment, with a descriptor on disk. *)
Definition described (config : PyPackageJson) : env (list proc) :=
  fun T e =>
    match e in sysE T return list proc -> T * list proc with
    | LoadJson => fun w => (Some config, w)
    | e' => scripted e'
    end.

(** An environment that counts the leftovers still to be removed: an
    inspection shows one while there are any, and each command that is
    not captured takes one away. *)
Definition draining : env nat :=
  fun T e =>
    match e in sysE T return nat -> T * nat with
    | IsDir _ => fun w => (true, w)
    | SpRun _ capture_stdout => fun w =>
        if capture_stdout
        then (ok (pkgs (match w with
                        | O => ["requests"]
                        | S _ => ["requests"; "leftover"]
                        end)), w)
        else (ok NotCaptured, Nat.pred w)
    | WriteFile _ _ => fun w => (tt, w)
    | LoadJson => fun w => (None, w)
    | SaveJson _ => fun w => (tt, w)
    end.

(** The scripted environment, before the virtual environment is made. *)
Definition unmade : env (list proc) :=
  fun T e =>
    match e in sysE T return list proc -> T * list proc with
    | IsDir _ => fun w => (false, w)
    | e' => scripted e'
    end.

(** * Properties *)

(** ** The executor *)

Section Exec.
Context {W : Type} (h : env W).

Lemma observe_bind {A B} (t : itree pyE A) (k : A -> itree pyE B) :
  observe (ITree.bind t k) =
  match observe t with
  | RetF r => observe (k r)
  | TauF t' => TauF (ITree.bind t' k)
  | VisF e k' => VisF e (fun x => ITree.bind (k' x) k)
  end.
Proof.
  change (observe (ITree.bind t k)) with
    (observe (match observe t with
              | RetF r => k r
              | TauF t' => Tau (ITree.bind t' k)
              | VisF e k' => Vis e (fun x => ITree.bind (k' x) k)
              end)).
  destruct (observe t); reflexivity.
Qed.

Lemma observe_iter {I R} (body : I -> itree pyE (I + R)) (i : I) :
  observe (ITree.iter body i) =
  observe (ITree.bind (body i)
             (fun lr => match lr with
                        | inl l => Tau (ITree.iter body l)
                        | inr r => Ret r
                        end)).
Proof. reflexivity. Qed.

Lemma exec_unfold {R} fuel (t : itree pyE R) w :
  exec h fuel t w = exec_node h fuel (observe t) w.
Proof. destruct fuel; reflexivity. Qed.

Lemma result_eta {R} (r : result R W) :
  r = {| how := how r; world := world r; calls := calls r |}.
Proof. destruct r; reflexivity. Qed.

Lemma exec_ret {R} fuel (r : R) w :
  exec h fuel (Ret r) w = {| how := Returned r fuel; world := w; calls := [] |}.
Proof. destruct fuel; reflexivity. Qed.

Lemma exec_halt {T} fuel (e : haltE void) (w : W) :
  exec h fuel (@halt T e) w =
  {| how := match e with Exit c => Exits c | Raise x => Raises x end;
     world := w; calls := [] |}.
Proof. rewrite exec_unfold. cbn. destruct e; reflexivity. Qed.

Lemma exec_bind {A B} fuel (t : itree pyE A) (k : A -> itree pyE B) w :
  exec h fuel (ITree.bind t k) w =
  then_ (exec h fuel t w) (fun a n w' => exec h n (k a) w').
Proof.
  revert t w. induction fuel as [|n IH]; intros t w;
    rewrite (exec_unfold _ (ITree.bind t k)), (exec_unfold _ t), observe_bind;
    destruct (observe t) as [r|t'|X e k'];
    try (rewrite <- exec_unfold; unfold then_; cbn; apply result_eta);
    try reflexivity.
  - destruct e as [e|e]; [reflexivity|]. revert k'; destruct e; reflexivity.
  - apply IH.
  - destruct e as [e|e]; [|revert k'; destruct e; reflexivity]. cbn.
    destruct (h e w) as [a w']. rewrite IH.
    unfold then_, after; cbn. destruct (how (exec h n (k' a) w')); reflexivity.
Qed.

Lemma exec_iter {I R} fuel (body : I -> itree pyE (I + R)) (i : I) w :
  exec h fuel (ITree.iter body i) w =
  then_ (exec h fuel (body i) w)
        (fun lr n w' =>
           match lr with
           | inl l =>
               match n with
               | O => {| how := Running; world := w'; calls := [] |}
               | S m => exec h m (ITree.iter body l) w'
               end
           | inr r => {| how := Returned r n; world := w'; calls := [] |}
           end).
Proof.
  rewrite exec_unfold, observe_iter, <- exec_unfold, exec_bind.
  unfold then_.
  destruct (how (exec h fuel (body i) w)) as [[l|r] n| | |]; try reflexivity;
    destruct n; reflexivity.
Qed.

Lemma exec_sys {T} fuel (e : sysE T) w :
  exec h fuel (sys e) w =
  match fuel with
  | O => {| how := Running; world := w; calls := [] |}
  | S n => let (a, w') := h e w in
           {| how := Returned a n; world := w'; calls := [record_call e a] |}
  end.
Proof.
  destruct fuel; [reflexivity|]. cbn. destruct (h e w) as [a w'].
  rewrite exec_ret. reflexivity.
Qed.

(** The step bound only goes down. *)
Lemma exec_fuel_le {R} fuel (t : itree pyE R) w r n :
  how (exec h fuel t w) = Returned r n -> n <= fuel.
Proof.
  revert t w. induction fuel as [|m IH]; intros t w; rewrite exec_unfold;
    destruct (observe t) as [r0|t'|X e k]; cbn.
  - intros E; inversion E; lia.
  - discriminate.
  - destruct e as [e|e]; [discriminate|]. destruct e; discriminate.
  - intros E; inversion E; lia.
  - intros E. apply IH in E. lia.
  - destruct e as [e|e]; [|destruct e; discriminate].
    destruct (h e w) as [a w']. cbn. intros E. apply IH in E. lia.
Qed.

(** ** The collaborators, run to their end *)

Lemma exec_run fuel cmd capture w :
  exec h fuel (run cmd false capture) w =
  match fuel with
  | O => {| how := Running; world := w; calls := [] |}
  | S n =>
      let (p, w') := h (SpRun cmd capture) w in
      {| how := if (returncode p =? 0)%Z
                then Returned (returncode p, stdout p) n
                else Exits (-1);
         world := w';
         calls := [CallRun cmd capture p] |}
  end.
Proof.
  unfold run. rewrite exec_bind, exec_sys.
  destruct fuel as [|n]; [reflexivity|].
  destruct (h (SpRun cmd capture) w) as [p w'].
  unfold then_ at 1; cbn [how world calls negb].
  rewrite exec_bind.
  destruct (returncode p =? 0)%Z; cbn [negb].
  - rewrite exec_ret. unfold then_; cbn. rewrite exec_ret. reflexivity.
  - unfold exit. rewrite exec_halt. reflexivity.
Qed.

Lemma exec_pip_get_installed fuel config b w :
  exec h fuel (pip_get_installed config b) w =
  match fuel with
  | O => {| how := Running; world := w; calls := [] |}
  | S n =>
      let (p, w') := h (SpRun (pip_list_cmd config) true) w in
      {| how := if (returncode p =? 0)%Z
                then match json_loads (stdout p) with
                     | Some js => Returned (installed_names b js) n
                     | None => Raises "JSONDecodeError"
                     end
                else Exits (-1);
         world := w';
         calls := [CallRun (pip_list_cmd config) true p] |}
  end.
Proof.
  unfold pip_get_installed. rewrite exec_bind, exec_run.
  destruct fuel as [|n]; [reflexivity|].
  destruct (h (SpRun (pip_list_cmd config) true) w) as [p w'].
  unfold then_; cbn [how world calls].
  destruct (returncode p =? 0)%Z; [|reflexivity].
  destruct (json_loads (stdout p)) as [js|].
  - rewrite exec_ret. reflexivity.
  - unfold raise. rewrite exec_halt. reflexivity.
Qed.

Lemma exec_run_unit fuel cmd w :
  exec h fuel (run cmd false false ;; Ret tt) w =
  match fuel with
  | O => {| how := Running; world := w; calls := [] |}
  | S n =>
      let (p, w') := h (SpRun cmd false) w in
      {| how := if (returncode p =? 0)%Z then Returned tt n else Exits (-1);
         world := w';
         calls := [CallRun cmd false p] |}
  end.
Proof.
  rewrite exec_bind, exec_run.
  destruct fuel as [|n]; [reflexivity|].
  destruct (h (SpRun cmd false) w) as [p w'].
  unfold then_; cbn [how world calls].
  destruct (returncode p =? 0)%Z; [|reflexivity].
  rewrite exec_ret. reflexivity.
Qed.

Lemma exec_pip_freeze fuel config w :
  exec h fuel (pip_freeze config) w =
  match fuel with
  | O => {| how := Running; world := w; calls := [] |}
  | S n =>
      let (p, w') := h (SpRun (pip_freeze_cmd config) true) w in
      if (returncode p =? 0)%Z then
        match n with
        | O => {| how := Running; world := w';
                  calls := [CallRun (pip_freeze_cmd config) true p] |}
        | S m =>
            let (u, w'') := h (WriteFile "requirements.txt" (stdout p)) w' in
            {| how := Returned tt m; world := w'';
               calls := [CallRun (pip_freeze_cmd config) true p;
                         CallWrite "requirements.txt" (stdout p)] |}
        end
      else {| how := Exits (-1); world := w';
              calls := [CallRun (pip_freeze_cmd config) true p] |}
  end.
Proof.
  unfold pip_freeze. rewrite exec_bind, exec_run.
  destruct fuel as [|n]; [reflexivity|].
  destruct (h (SpRun (pip_freeze_cmd config) true) w) as [p w'].
  unfold then_; cbn [how world calls].
  destruct (returncode p =? 0)%Z; [|reflexivity].
  rewrite exec_sys. destruct n as [|m]; [reflexivity|].
  destruct (h (WriteFile "requirements.txt" (stdout p)) w') as [[] w''].
  reflexivity.
Qed.

End Exec.

Section Spare.
Context {W : Type} (h : env W).

(** A run that came to an end does the same with more steps to spend. *)
Lemma exec_more_fuel {R} k fuel (t : itree pyE R) w :
  how (exec h fuel t w) <> Running ->
  exec h (fuel + k) t w = spare k (exec h fuel t w).
Proof.
  revert t w. induction fuel as [|n IH]; intros t w;
    rewrite (exec_unfold h _ t), (exec_unfold h (_ + k) t);
    destruct (observe t) as [r|t'|X e k']; cbn [exec_node].
  - reflexivity.
  - intros N. now contradiction N.
  - destruct e as [e|e]; [intros N; now contradiction N|].
    revert k'. destruct e; reflexivity.
  - reflexivity.
  - cbn [Nat.add]. apply IH.
  - destruct e as [e|e]; [|revert k'; destruct e; reflexivity].
    cbn [Nat.add]. destruct (h e w) as [a w']. cbn [after how].
    intros N. rewrite (IH _ _ N). reflexivity.
Qed.
End Spare.

(** ** Every run has the shape of a reconciliation *)

Section Shape.
Context {W : Type} (h : env W).

Lemma then_assoc {A B C} (r : result A W) (f : A -> nat -> W -> result B W)
    (g : B -> nat -> W -> result C W) :
  then_ (then_ r f) g = then_ r (fun a n w => then_ (f a n w) g).
Proof.
  unfold then_. destruct (how r) as [a n| | |]; cbn; try reflexivity.
  destruct (how (f a n (world r))); cbn; try reflexivity.
  rewrite app_assoc. reflexivity.
Qed.

Lemma then_ext {A B} (r : result A W) (f g : A -> nat -> W -> result B W) :
  (forall a n w, f a n w = g a n w) -> then_ r f = then_ r g.
Proof. intros E. unfold then_. destruct (how r); try reflexivity. rewrite E. reflexivity. Qed.

Lemma chain_then {A B} (P Q : list call -> ending -> Prop)
    (r : result A W) (f : A -> nat -> W -> result B W) :
  P (calls r) (ending_of (how r)) ->
  (forall a n, how r = Returned a n ->
     Q (calls (f a n (world r))) (ending_of (how (f a n (world r))))) ->
  chain P Q (calls (then_ r f)) (ending_of (how (then_ r f))).
Proof.
  intros HP HQ. unfold then_.
  destruct (how r) as [a n| | |] eqn:E; cbn in *;
    try (apply chain_stop; [assumption|discriminate]).
  apply chain_go; [assumption|]. apply HQ. reflexivity.
Qed.

Lemma venv_shape fuel config b w :
  let r := exec h fuel (ensure_venv config b) w in
  venv_calls config (calls r) (ending_of (how r)).
Proof.
  cbn. unfold ensure_venv. rewrite exec_bind, exec_sys.
  destruct fuel as [|n]; [constructor|].
  destruct (h (IsDir (venv_dir config)) w) as [d w'].
  unfold then_; cbn [how world calls record_call].
  destruct d; cbn [negb].
  - rewrite exec_ret. cbn. constructor.
  - unfold create_venv. rewrite exec_run_unit.
    destruct n as [|m]; [constructor|].
    fold (venv_cmd config).
    destruct (h (SpRun (venv_cmd config) false) w') as [p w''].
    destruct (returncode p =? 0)%Z eqn:E; cbn.
    + apply venv_created. now apply Z.eqb_eq.
    + apply venv_failed. now apply Z.eqb_neq.
Qed.

Lemma length_eq_nil {A} (l : list A) : (List.length l =? 0)%nat = true <-> l = [].
Proof. destruct l; cbn; split; intros; congruence. Qed.

Lemma install_shape fuel config w :
  let r := then_ (exec h fuel (pip_get_installed config false) w)
             (fun installed n w' =>
                exec h n
                  (if (0 <? List.length (to_install (dependencies config) installed))%nat
                   then pip_install config (to_install (dependencies config) installed)
                   else Ret tt) w') in
  install_calls config (calls r) (ending_of (how r)).
Proof.
  cbn. rewrite exec_pip_get_installed.
  destruct fuel as [|n]; [constructor|].
  destruct (h (SpRun (pip_list_cmd config) true) w) as [p w'].
  unfold then_; cbn [how world calls].
  destruct (returncode p =? 0)%Z eqn:E;
    [apply Z.eqb_eq in E | apply Z.eqb_neq in E; now constructor].
  destruct (json_loads (stdout p)) as [js|] eqn:J; [|now constructor].
  destruct (to_install (dependencies config) (installed_names false js)) as [|x l] eqn:T.
  - cbn. rewrite exec_ret. cbn. eapply install_nothing; eassumption.
  - assert (N : to_install (dependencies config) (installed_names false js) <> [])
      by (rewrite T; discriminate).
    cbn [List.length Nat.ltb Nat.leb]. unfold pip_install. rewrite exec_run_unit.
    rewrite <- T in *. clear T.
    destruct n as [|m]; [cbn; eapply install_pending; eassumption|].
    destruct (h _ w') as [q w''].
    destruct (returncode q =? 0)%Z eqn:E2; cbn.
    + eapply install_done; try eassumption. now apply Z.eqb_eq.
    + eapply install_failed; try eassumption. now apply Z.eqb_neq.
Qed.

Lemma exec_removal_turn fuel config w :
  exec h fuel (removal_turn config (dependencies config)) w =
  match fuel with
  | O => {| how := Running; world := w; calls := [] |}
  | S n =>
      let (p, w') := h (SpRun (pip_list_cmd config) true) w in
      let inspected := [CallRun (pip_list_cmd config) true p] in
      if (returncode p =? 0)%Z then
        match json_loads (stdout p) with
        | None => {| how := Raises "JSONDecodeError"; world := w'; calls := inspected |}
        | Some js =>
            let batch := to_uninstall (dependencies config) (installed_names true js) in
            if (List.length batch =? 0)%nat
            then {| how := Returned (inr tt) n; world := w'; calls := inspected |}
            else
              match n with
              | O => {| how := Running; world := w'; calls := inspected |}
              | S m =>
                  let (q, w'') := h (SpRun (pip_uninstall_cmd config batch) false) w' in
                  {| how := if (returncode q =? 0)%Z
                            then Returned (inl tt) m else Exits (-1);
                     world := w'';
                     calls := inspected ++
                              [CallRun (pip_uninstall_cmd config batch) false q] |}
              end
        end
      else {| how := Exits (-1); world := w'; calls := inspected |}
  end.
Proof.
  unfold removal_turn. rewrite exec_bind, exec_pip_get_installed.
  destruct fuel as [|n]; [reflexivity|].
  destruct (h (SpRun (pip_list_cmd config) true) w) as [p w'].
  unfold then_ at 1; cbn [how world calls].
  destruct (returncode p =? 0)%Z; [|reflexivity].
  destruct (json_loads (stdout p)) as [js|]; [|reflexivity].
  cbv zeta.
  destruct (List.length (to_uninstall (dependencies config) (installed_names true js)) =? 0)%nat.
  - rewrite exec_ret. reflexivity.
  - rewrite exec_bind. unfold pip_uninstall. rewrite exec_run_unit.
    destruct n as [|m]; [reflexivity|].
    destruct (h _ w') as [q w''].
    unfold then_; cbn [how world calls].
    destruct (returncode q =? 0)%Z; [|reflexivity].
    rewrite exec_ret. reflexivity.
Qed.

Lemma removal_shape fuel config w :
  let r := exec h fuel
             (ITree.iter (fun _ : unit => removal_turn config (dependencies config)) tt) w in
  removal_calls config (calls r) (ending_of (how r)).
Proof.
  cbn. revert w. induction fuel as [fuel IH] using lt_wf_ind. intros w.
  rewrite exec_iter, exec_removal_turn.
  destruct fuel as [|n]; [constructor|].
  destruct (h (SpRun (pip_list_cmd config) true) w) as [p w'].
  cbv zeta.
  destruct (returncode p =? 0)%Z eqn:E;
    [apply Z.eqb_eq in E | apply Z.eqb_neq in E; now constructor].
  destruct (json_loads (stdout p)) as [js|] eqn:J; [|now constructor].
  destruct (List.length _ =? 0)%nat eqn:T.
  - apply length_eq_nil in T. unfold then_; cbn. eapply removal_fixpoint; eassumption.
  - assert (N : to_uninstall (dependencies config) (installed_names true js) <> [])
      by (intros N; apply length_eq_nil in N; congruence).
    destruct n as [|m]; [eapply removal_pending; eassumption|].
    destruct (h _ w') as [q w''].
    destruct (returncode q =? 0)%Z eqn:E2;
      [apply Z.eqb_eq in E2
      | apply Z.eqb_neq in E2; eapply removal_failed; eassumption].
    unfold then_; cbn [how world calls app].
    destruct m as [|k].
    + cbn. eapply removal_round; try eassumption. constructor.
    + eapply removal_round; try eassumption. apply IH. lia.
Qed.

Lemma snapshot_shape fuel config w :
  let r := exec h fuel (pip_freeze config) w in
  snapshot_calls config (calls r) (ending_of (how r)).
Proof.
  cbn. rewrite exec_pip_freeze.
  destruct fuel as [|n]; [constructor|].
  destruct (h _ w) as [p w'].
  destruct (returncode p =? 0)%Z eqn:E;
    [apply Z.eqb_eq in E | apply Z.eqb_neq in E; now constructor].
  destruct n as [|m]; [now constructor|].
  destruct (h _ w') as [u w'']. now constructor.
Qed.

Lemma sync_deps_shape fuel config w :
  let r := exec h fuel (sync_deps config) w in
  sync_calls config (calls r) (ending_of (how r)).
Proof.
  cbn. unfold sync_deps, sync_calls.
  rewrite exec_bind.
  apply chain_then; [apply venv_shape|]. intros _ n1 _.
  rewrite exec_bind.
  erewrite then_ext; [|intros; rewrite exec_bind; reflexivity].
  rewrite <- then_assoc.
  apply chain_then; [apply install_shape|]. intros _ n2 _.
  rewrite exec_bind.
  apply chain_then; [apply removal_shape|]. intros _ n3 _.
  apply snapshot_shape.
Qed.

Lemma then_returned {A B} (a : A) n (w : W) c (f : A -> nat -> W -> result B W) :
  then_ {| how := Returned a n; world := w; calls := c |} f
  = {| how := how (f a n w); world := world (f a n w);
       calls := c ++ calls (f a n w) |}.
Proof. reflexivity. Qed.

(** [sync_deps], phase after phase. *)
Lemma exec_sync_deps fuel config w :
  exec h fuel (sync_deps config) w =
  then_ (exec h fuel (ensure_venv config false) w) (fun _ n1 w1 =>
  then_ (exec h n1 (pip_get_installed config false) w1) (fun installed n2 w2 =>
  then_ (exec h n2
           (if (0 <? List.length (to_install (dependencies config) installed))%nat
            then pip_install config (to_install (dependencies config) installed)
            else Ret tt) w2) (fun _ n3 w3 =>
  then_ (exec h n3
           (ITree.iter (fun _ : unit =>
                          removal_turn config (dependencies config)) tt) w3)
        (fun _ n4 w4 => exec h n4 (pip_freeze config) w4)))).
Proof.
  unfold sync_deps. rewrite exec_bind. apply then_ext. intros _ n1 w1.
  rewrite exec_bind. apply then_ext. intros installed n2 w2.
  rewrite exec_bind. apply then_ext. intros _ n3 w3.
  apply exec_bind.
Qed.

End Shape.

(** ** The scenarios of the design, run *)

Example missing_package_installed :
  let r := exec scripted 20 (sync_deps missing_project) missing_script in
  how r = Returned tt 14
  /\ calls r
     = [CallIsDir ".venv" true;
        CallRun (pip_list_cmd missing_project) true (ok (pkgs ["pip"; "setuptools"]));
        CallRun (pip_install_cmd missing_project ["requests"]) false (ok NotCaptured);
        CallRun (pip_list_cmd missing_project) true
                (ok (pkgs ["pip"; "requests"; "setuptools"]));
        CallRun (pip_freeze_cmd missing_project) true (ok (Text "requests==2.32.3"));
        CallWrite "requirements.txt" (Text "requests==2.32.3")].
Proof. split; vm_compute; reflexivity. Qed.

Example orphan_removed :
  let r := exec scripted 20 (sync_deps orphan_project) orphan_script in
  how r = Returned tt 12
  /\ calls r
     = [CallIsDir ".venv" true;
        CallRun (pip_list_cmd orphan_project) true
                (ok (pkgs ["a"; "b"; "pip"; "setuptools"]));
        CallRun (pip_list_cmd orphan_project) true
                (ok (pkgs ["a"; "b"; "pip"; "setuptools"]));
        CallRun (pip_uninstall_cmd orphan_project ["b"]) false (ok NotCaptured);
        CallRun (pip_list_cmd orphan_project) true (ok (pkgs ["a"; "pip"; "setuptools"]));
        CallRun (pip_freeze_cmd orphan_project) true (ok (Text "a==1.0"));
        CallWrite "requirements.txt" (Text "a==1.0")].
Proof. split; vm_compute; reflexivity. Qed.

(** ** The dependency set *)

Lemma mem_In p l : mem p l = true <-> In p l.
Proof.
  unfold mem. rewrite existsb_exists. split.
  - intros [x [I E]]. apply String.eqb_eq in E. now subst.
  - intros I. exists p. split; [assumption | apply String.eqb_refl].
Qed.

Lemma mem_false p l : mem p l = false <-> ~ In p l.
Proof. rewrite <- mem_In. destruct (mem p l); split; congruence. Qed.

Lemma set_item_middle pre x l v :
  set_item (pre ++ x :: l) (List.length pre) v = pre ++ v :: l.
Proof. induction pre as [|y pre IH]; cbn; [reflexivity | now rewrite IH]. Qed.

Lemma to_lowercase_from pre l :
  fold_left (fun l i => set_item l i (lower (nth i l "")))
            (seq (List.length pre) (List.length l)) (pre ++ l)
  = pre ++ map lower l.
Proof.
  revert pre. induction l as [|x l IH]; intros pre; [reflexivity|].
  cbn [List.length seq fold_left map].
  rewrite nth_middle, set_item_middle.
  change (pre ++ lower x :: l) with (pre ++ [lower x] ++ l).
  rewrite app_assoc.
  replace (S (List.length pre)) with (List.length (pre ++ [lower x]))
    by (rewrite length_app; cbn; lia).
  rewrite IH, <- app_assoc. reflexivity.
Qed.

(** The in-place loop of [to_lowercase] folds every name. *)
Lemma to_lowercase_map l : to_lowercase l = map lower l.
Proof. exact (to_lowercase_from [] l). Qed.

Lemma filter_filter_comm {A} (p q : A -> bool) l :
  filter p (filter q l) = filter q (filter p l).
Proof.
  induction l as [|x l IH]; [reflexivity|]. cbn.
  destruct (p x) eqn:P, (q x) eqn:Q; cbn; rewrite ?P, ?Q, IH; reflexivity.
Qed.

Lemma filter_absorb {A} (p q : A -> bool) l :
  (forall x, p x = true -> q x = true) -> filter p (filter q l) = filter p l.
Proof.
  intros I. induction l as [|x l IH]; [reflexivity|]. cbn.
  destruct (q x) eqn:Q; cbn; destruct (p x) eqn:P; rewrite ?IH; try reflexivity.
  apply I in P. congruence.
Qed.

Lemma first_seen_filter p l :
  first_seen (filter p l) = filter p (first_seen l).
Proof.
  induction l as [|x l IH]; [reflexivity|]. cbn.
  destruct (p x) eqn:P; cbn; rewrite ?P, IH.
  - now rewrite filter_filter_comm.
  - symmetry. apply filter_absorb. intros y Y.
    destruct (String.eqb_spec y x); [subst; congruence | reflexivity].
Qed.

Lemma mem_app_one p l x :
  negb (mem p (l ++ [x])) = negb (mem p l) && negb (String.eqb p x).
Proof.
  unfold mem. rewrite existsb_app. cbn. rewrite orb_false_r, negb_orb. reflexivity.
Qed.

Lemma filter_and {A} (p q : A -> bool) l :
  filter (fun x => p x && q x) l = filter q (filter p l).
Proof.
  induction l as [|x l IH]; [reflexivity|]. cbn.
  destruct (p x); cbn; [destruct (q x)|]; rewrite IH; reflexivity.
Qed.

(** The loop of [cmd_add] appends, in order, the first occurrence of each
    name that is not yet there. *)
Lemma add_dependencies_spec packages deps :
  add_dependencies deps packages
  = deps ++ first_seen (filter (fun p => negb (mem p deps)) packages).
Proof.
  unfold add_dependencies. revert deps.
  induction packages as [|x l IH]; intros deps; cbn [fold_left filter].
  - now rewrite app_nil_r.
  - destruct (mem x deps) eqn:M; cbn [negb]; rewrite IH; [reflexivity|].
    cbn [first_seen]. rewrite <- app_assoc. cbn [app]. do 2 f_equal.
    rewrite <- first_seen_filter.
    rewrite (filter_ext _ (fun p => negb (mem p deps) && negb (String.eqb p x)))
      by (intros; apply mem_app_one).
    now rewrite filter_and.
Qed.

Lemma lower_ascii_idem c : lower_ascii (lower_ascii c) = lower_ascii c.
Proof. destruct c as [[] [] [] [] [] [] [] []]; reflexivity. Qed.

Lemma lower_idem s : lower (lower s) = lower s.
Proof. induction s as [|c s IH]; cbn; [reflexivity | now rewrite lower_ascii_idem, IH]. Qed.

Lemma NoDup_count x l :
  NoDup l ->
  List.length (filter (fun e => String.eqb e x) l) = if mem x l then 1 else 0.
Proof.
  induction 1 as [|y l N _ IH]; [reflexivity|]. cbn.
  rewrite (String.eqb_sym x y).
  destruct (String.eqb_spec y x) as [->|D]; cbn.
  - rewrite IH. apply mem_false in N. now rewrite N.
  - exact IH.
Qed.

Lemma entries_for_normalized p deps :
  normalized deps ->
  List.length (entries_for p deps) = if mem (lower p) deps then 1 else 0.
Proof.
  intros [N F]. rewrite <- (NoDup_count _ N). unfold entries_for. f_equal.
  clear N. induction F as [|e l E _ IH]; [reflexivity|]. cbn.
  rewrite E, IH. reflexivity.
Qed.

Lemma add_one_name deps x :
  add_dependencies deps [x] = if mem x deps then deps else deps ++ [x].
Proof. cbn. destruct (mem x deps); reflexivity. Qed.

Lemma add_seen_name deps x l :
  mem x deps = true -> add_dependencies deps (x :: l) = add_dependencies deps l.
Proof. intros M. cbn. now rewrite M. Qed.

Lemma mem_last x deps : mem x (deps ++ [x]) = true.
Proof. apply mem_In, in_or_app. right. now left. Qed.

(** C7. Adding folds every given name, skips the names already present,
    keeps the existing entries in their order and appends the new names
    in the order given; two spellings of one package, such as "Flask"
    and "flask", added together or one after the other in either order
    to a dependency set, leave exactly one entry for it. *)
Theorem add_case_folding (deps args : list string) :
  add_dependencies deps (to_lowercase args)
  = deps ++ first_seen (filter (fun p => negb (mem p deps)) (map lower args))
  /\ forall a b : string,
      normalized deps -> lower a = lower b ->
      let once := add_dependencies deps (to_lowercase [a]) in
      List.length (entries_for a once) = 1
      /\ add_dependencies deps (to_lowercase [a; b]) = once
      /\ add_dependencies deps (to_lowercase [b; a]) = once
      /\ add_dependencies (add_dependencies deps (to_lowercase [a]))
                          (to_lowercase [b]) = once
      /\ add_dependencies (add_dependencies deps (to_lowercase [b]))
                          (to_lowercase [a]) = once.
Proof.
  split.
  - now rewrite to_lowercase_map, add_dependencies_spec.
  - intros a b N E. cbv zeta. rewrite !to_lowercase_map. cbn [map].
    rewrite <- E. rewrite !add_one_name.
    destruct (mem (lower a) deps) eqn:M.
    + rewrite ?M, !add_seen_name by assumption.
      rewrite (entries_for_normalized _ N), M. repeat split; reflexivity.
    + rewrite mem_last.
      assert (A2 : add_dependencies deps [lower a; lower a] = deps ++ [lower a]).
      { unfold add_dependencies. cbn [fold_left]. rewrite M. cbn [negb].
        now rewrite mem_last. }
      rewrite A2. repeat split; try reflexivity.
      unfold entries_for. rewrite filter_app, length_app.
      fold (entries_for a deps). rewrite (entries_for_normalized _ N), M.
      cbn. rewrite lower_idem, String.eqb_refl. reflexivity.
Qed.

(** "Flask" and "flask" on a set that already lists two packages. *)
Lemma add_case_folding_flask :
  normalized ["requests"; "numpy"] /\ lower "Flask" = lower "flask"
  /\ add_dependencies ["requests"; "numpy"] (to_lowercase ["Flask"; "flask"])
     = ["requests"; "numpy"; "flask"].
Proof.
  assert (N : normalized ["requests"; "numpy"]).
  { split; [|repeat constructor].
    repeat constructor; cbn; intuition discriminate. }
  split; [exact N|]. split; [reflexivity|].
  destruct (add_case_folding ["requests"; "numpy"] []) as [_ H].
  destruct (H "Flask" "flask" N eq_refl) as (_ & E & _).
  rewrite E. reflexivity.
Defined.

Lemma filter_all {A} (p : A -> bool) l :
  (forall x, In x l -> p x = true) -> filter p l = l.
Proof.
  induction l as [|x l IH]; intros H; [reflexivity|]. cbn.
  rewrite (H x (or_introl eq_refl)), IH; [reflexivity|].
  intros y I. apply H. now right.
Qed.

Lemma filter_none {A} (p : A -> bool) l :
  (forall x, In x l -> p x = false) -> filter p l = [].
Proof.
  induction l as [|x l IH]; intros H; [reflexivity|]. cbn.
  rewrite (H x (or_introl eq_refl)), IH; [reflexivity|].
  intros y I. apply H. now right.
Qed.

Lemma first_seen_In x l : In x (first_seen l) -> In x l.
Proof.
  induction l as [|y l IH]; [easy|]. cbn. intros [E|I]; [now left|].
  right. apply IH. apply filter_In in I. tauto.
Qed.

(** C8. Removing deletes exactly the entries equal to one of the given
    names after folding, and keeps the others in their order; removing
    the names that were just added, none of which was in the set before,
    gives the set back as it was. *)
Theorem add_rm_round_trip (deps args : list string) :
  rm_dependencies deps (to_lowercase args)
  = filter (fun p => negb (mem p (map lower args))) deps
  /\ (forall p,
        In p (rm_dependencies deps (to_lowercase args))
        <-> In p deps /\ forall n, In n args -> p <> lower n)
  /\ ((forall n, In n args -> ~ In (lower n) deps) ->
      rm_dependencies (add_dependencies deps (to_lowercase args))
                      (to_lowercase args) = deps).
Proof.
  rewrite to_lowercase_map. split; [reflexivity|]. split.
  - intros p. unfold rm_dependencies. rewrite filter_In, negb_true_iff, mem_false.
    rewrite in_map_iff. split; intros [I N]; (split; [exact I|]).
    + intros n A E. apply N. exists n. split; [now symmetry | exact A].
    + intros (n & E & A). now apply (N n A).
  - intros Fresh. rewrite add_dependencies_spec. unfold rm_dependencies.
    rewrite filter_app, filter_all, filter_none; [apply app_nil_r| |].
    + intros x I. apply first_seen_In, filter_In in I. destruct I as [I _].
      apply mem_In in I. now rewrite I.
    + intros x I. apply negb_true_iff, mem_false. intros M.
      apply in_map_iff in M. destruct M as [n [E M]]. subst x.
      now apply (Fresh n).
Qed.

(** Adding and removing "Flask" and "numpy" on a set without them. *)
Lemma add_rm_round_trip_flask :
  (forall n, In n ["Flask"; "numpy"] -> ~ In (lower n) ["requests"; "six"])
  /\ rm_dependencies
       (add_dependencies ["requests"; "six"] (to_lowercase ["Flask"; "numpy"]))
       (to_lowercase ["Flask"; "numpy"]) = ["requests"; "six"].
Proof.
  assert (F : forall n, In n ["Flask"; "numpy"] -> ~ In (lower n) ["requests"; "six"]).
  { cbn. intros n [<-|[<-|[]]]; cbn; intuition discriminate. }
  split; [exact F|].
  exact (proj2 (proj2 (add_rm_round_trip ["requests"; "six"] ["Flask"; "numpy"])) F).
Defined.

(** ** What [cmd_add] and [cmd_rm] write to the descriptor *)

Lemma exec_load {W} (h : env W) n w config w1 :
  h _ LoadJson w = (Some config, w1) ->
  exec h (S n) load_pypackagejson w
  = {| how := Returned config n; world := w1;
       calls := [CallLoad (Some config)] |}.
Proof.
  intros L. unfold load_pypackagejson. rewrite exec_bind, exec_sys, L.
  rewrite then_returned, exec_ret. reflexivity.
Qed.

Lemma exec_save {W} (h : env W) n w config :
  exec h (S n) (save_pypackagejson config) w
  = {| how := Returned tt n; world := snd (h _ (SaveJson config) w);
       calls := [CallSave config] |}.
Proof.
  unfold save_pypackagejson. rewrite exec_sys.
  destruct (h _ (SaveJson config) w) as [[] w']. reflexivity.
Qed.

(** Without arguments both commands stop before reading the descriptor. *)
Lemma cmd_add_no_args {W} (h : env W) fuel w :
  exec h fuel (cmd_add []) w = {| how := Exits (-1); world := w; calls := [] |}
  /\ exec h fuel (cmd_rm []) w = {| how := Exits (-1); world := w; calls := [] |}.
Proof. split; apply (exec_halt h fuel (Exit (-1)) w). Qed.

(** [cmd_add] saves the descriptor with [add_dependencies] of the folded
    arguments, and reconciles from it. *)
Lemma cmd_add_saves {W} (h : env W) n a args w config w1 :
  h _ LoadJson w = (Some config, w1) ->
  let saved :=
    set_dependencies config
      (add_dependencies (dependencies config) (to_lowercase (a :: args))) in
  exists rest,
    calls (exec h (S (S n)) (cmd_add (a :: args)) w)
    = CallLoad (Some config) :: CallSave saved :: rest
    /\ rest = calls (exec h n (sync_deps saved) (snd (h _ (SaveJson saved) w1))).
Proof.
  intros L. cbv zeta. unfold cmd_add. cbn [List.length Nat.eqb].
  rewrite exec_bind, (exec_load h (S n) w L), then_returned.
  rewrite exec_bind, exec_save, then_returned.
  eexists. split; reflexivity.
Qed.

(** [cmd_rm] saves the descriptor with [rm_dependencies] of the folded
    arguments, and reconciles from it. *)
Lemma cmd_rm_saves {W} (h : env W) n a args w config w1 :
  h _ LoadJson w = (Some config, w1) ->
  let saved :=
    set_dependencies config
      (rm_dependencies (dependencies config) (to_lowercase (a :: args))) in
  exists rest,
    calls (exec h (S (S n)) (cmd_rm (a :: args)) w)
    = CallLoad (Some config) :: CallSave saved :: rest
    /\ rest = calls (exec h n (sync_deps saved) (snd (h _ (SaveJson saved) w1))).
Proof.
  intros L. cbv zeta. unfold cmd_rm. cbn [List.length Nat.eqb].
  rewrite exec_bind, (exec_load h (S n) w L), then_returned.
  rewrite exec_bind, exec_save, then_returned.
  eexists. split; reflexivity.
Qed.

(** ** The four phases of a run *)

Lemma sync_calls_phases config tr e : sync_calls config tr e -> phases config tr e.
Proof.
  unfold sync_calls. intros H.
  inversion H as [t e0 V NV|tv u e0 V H1]; subst; clear H.
  { replace tr with (tr ++ [] ++ [] ++ []) by now rewrite !app_nil_r.
    replace e with (overall e Unfinished Unfinished Unfinished)
      by (destruct e; cbn; congruence).
    constructor; try constructor; try assumption; tauto. }
  inversion H1 as [t e0 I NI|ti u0 e0 I H2]; subst; clear H1.
  { replace u with (u ++ [] ++ []) by now rewrite !app_nil_r.
    replace e with (overall Completed e Unfinished Unfinished)
      by (destruct e; cbn; congruence).
    constructor; try constructor; try assumption; tauto. }
  inversion H2 as [t e0 R NR|tl ts e0 R S]; subst; clear H2.
  { replace u0 with (u0 ++ []) by now rewrite !app_nil_r.
    replace e with (overall Completed Completed e Unfinished)
      by (destruct e; cbn; congruence).
    constructor; try constructor; try assumption; tauto. }
  change e with (overall Completed Completed Completed e).
  constructor; try assumption; tauto.
Qed.

Lemma sync_deps_phases {W} (h : env W) fuel config w :
  phases config (calls (exec h fuel (sync_deps config) w))
                (ending_of (how (exec h fuel (sync_deps config) w))).
Proof. apply sync_calls_phases, sync_deps_shape. Qed.

Lemma failed_zero cmd capture p :
  returncode p = 0%Z -> failed (CallRun cmd capture p) = false.
Proof. intros E. cbn. now rewrite E. Qed.

Lemma failed_nonzero cmd capture p :
  returncode p <> 0%Z -> failed (CallRun cmd capture p) = true.
Proof. intros E. cbn. apply Z.eqb_neq in E. now rewrite E. Qed.

Lemma venv_kinds config t e :
  venv_calls config t e ->
  existsb is_list t = false /\ existsb is_install t = false
  /\ existsb is_uninstall t = false /\ existsb is_freeze t = false
  /\ existsb is_write t = false.
Proof. destruct 1; cbn; auto. Qed.

Lemma install_kinds config t e :
  install_calls config t e ->
  existsb is_uninstall t = false /\ existsb is_freeze t = false
  /\ existsb is_write t = false.
Proof. destruct 1; cbn; auto. Qed.

Lemma removal_kinds config t e :
  removal_calls config t e ->
  existsb is_install t = false /\ existsb is_freeze t = false
  /\ existsb is_write t = false.
Proof. induction 1; cbn; auto. Qed.

Lemma snapshot_kinds config t e :
  snapshot_calls config t e ->
  existsb is_list t = false /\ existsb is_install t = false
  /\ existsb is_uninstall t = false.
Proof. destruct 1; cbn; auto. Qed.

Ltac failure_case :=
  cbn [fails_last existsb orb];
  rewrite ?failed_zero by assumption;
  try reflexivity;
  try (split; [reflexivity|];
       match goal with
       | |- exists l c, [?a] = _ /\ _ => exists [], a
       | |- exists l c, [?a; ?b] = _ /\ _ => exists [a], b
       end;
       cbn [existsb orb app];
       rewrite ?failed_zero by assumption;
       rewrite ?failed_nonzero by assumption;
       auto).

Lemma venv_fails_last config t e : venv_calls config t e -> fails_last t e.
Proof. destruct 1; failure_case. Qed.

Lemma install_fails_last config t e : install_calls config t e -> fails_last t e.
Proof. destruct 1; failure_case. Qed.

Lemma snapshot_fails_last config t e : snapshot_calls config t e -> fails_last t e.
Proof. destruct 1; failure_case. Qed.

Lemma fails_last_round a b rest e :
  failed a = false -> failed b = false ->
  fails_last rest e -> fails_last (a :: b :: rest) e.
Proof.
  intros A B. destruct e; cbn [fails_last existsb]; rewrite ?A, ?B; auto.
  intros [C (l & c & E & L & F)]. split; [assumption|].
  exists (a :: b :: l), c. subst rest. cbn. rewrite A, B. auto.
Qed.

Lemma removal_fails_last config t e : removal_calls config t e -> fails_last t e.
Proof.
  induction 1; try solve [failure_case].
  apply fails_last_round; auto using failed_zero.
Qed.

Lemma fails_last_after t u e :
  existsb failed t = false -> fails_last u e -> fails_last (t ++ u) e.
Proof.
  intros T. destruct e; cbn [fails_last]; rewrite ?existsb_app, ?T; auto.
  intros [C (l & c & E & L & F)]. split; [assumption|].
  exists (t ++ l), c. subst u. rewrite existsb_app, T, L, app_assoc. auto.
Qed.

Lemma fails_last_completed t : fails_last t Completed -> existsb failed t = false.
Proof. exact (fun H => H). Qed.

(** In a run, only the last command can have failed, and the run then
    ends in [exit(-1)]. *)
Lemma phases_fails_last config tr e : phases config tr e -> fails_last tr e.
Proof.
  destruct 1 as [tv ti tl ts ev ei el es V I R S EI ER ES].
  apply venv_fails_last in V. apply install_fails_last in I.
  apply removal_fails_last in R. apply snapshot_fails_last in S.
  destruct ev;
    try (destruct EI as [-> ->]; [discriminate|];
         destruct ER as [-> ->]; [left; discriminate|];
         destruct ES as [-> ->]; [left; discriminate|];
         now rewrite !app_nil_r).
  apply fails_last_after; [exact V|].
  destruct ei;
    try (destruct ER as [-> ->]; [right; discriminate|];
         destruct ES as [-> ->]; [right; left; discriminate|];
         now rewrite !app_nil_r).
  apply fails_last_after; [exact I|].
  destruct el;
    try (destruct ES as [-> ->]; [right; right; discriminate|];
         now rewrite !app_nil_r).
  apply fails_last_after; [exact R|]. exact S.
Qed.

(** ** Abort on the first failure *)

Lemma existsb_false_In {A} (f : A -> bool) l x :
  existsb f l = false -> In x l -> f x = false.
Proof.
  intros E I. destruct (f x) eqn:F; [|reflexivity].
  rewrite <- E. symmetry. apply existsb_exists. eauto.
Qed.

Lemma last_is_unique {A} (f : A -> bool) l c before c' after :
  before ++ c' :: after = l ++ [c] ->
  existsb f l = false -> f c' = true ->
  after = [] /\ before = l /\ c' = c.
Proof.
  intros E L F. destruct after as [|a after] using rev_ind.
  - apply app_inj_tail in E. tauto.
  - clear IHafter. rewrite app_comm_cons, app_assoc in E.
    apply app_inj_tail in E. destruct E as [E _]. subst l.
    rewrite (existsb_false_In f _ c' L) in F; [discriminate|].
    apply in_or_app. right. now left.
Qed.

(** C5. A command that comes back with a non-zero status is the last call
    of the run: the run ends there in [exit(-1)], which the caller sees as
    status 255, nothing is retried and no later phase runs.  When it is
    the install that fails, the run has issued no uninstall and has not
    taken or written a snapshot. *)
Theorem abort_on_first_failure {W} (h : env W) fuel config w before c after :
  let r := exec h fuel (sync_deps config) w in
  calls r = before ++ c :: after -> failed c = true ->
  after = []
  /\ existsb failed before = false
  /\ how r = Exits (-1)
  /\ exit_status (how r) = Some 255%Z
  /\ (is_install c = true ->
      existsb is_uninstall (calls r) = false
      /\ existsb is_freeze (calls r) = false
      /\ existsb is_write (calls r) = false).
Proof.
  intros r E F.
  pose proof (sync_deps_phases h fuel config w) as P. fold r in P.
  pose proof (phases_fails_last P) as L.
  assert (I : In c (calls r)) by (rewrite E; apply in_or_app; right; now left).
  destruct (how r) as [u n|code|x|] eqn:H; cbn [ending_of fails_last] in L;
    try (rewrite (existsb_false_In _ _ _ L I) in F; discriminate).
  destruct L as [-> (l & c' & E' & L & F')].
  rewrite E in E'. destruct (last_is_unique failed _ _ _ _ _ E' L F) as (-> & -> & ->).
  split; [reflexivity|]. split; [assumption|]. split; [reflexivity|].
  split; [reflexivity|].
  intros K. cbn [ending_of] in P.
  inversion P as [tv ti tl ts ev ei el es V Ins R S EI ER ES C O]; clear P.
  pose proof (venv_kinds V) as (_ & KV & VU & VF & VW).
  pose proof (install_kinds Ins) as (IU & IFr & IW).
  pose proof (removal_kinds R) as (RI & _ & _).
  pose proof (snapshot_kinds S) as (_ & SI & _).
  assert (In c' ti) as Ic.
  { rewrite <- C in I. repeat (apply in_app_or in I; destruct I as [I|I]);
      try assumption;
      [ rewrite (existsb_false_In _ _ _ KV I) in K
      | rewrite (existsb_false_In _ _ _ RI I) in K
      | rewrite (existsb_false_In _ _ _ SI I) in K ]; discriminate. }
  assert (ev = Completed) as ->.
  { destruct ev; try reflexivity;
      destruct EI as [-> _]; try discriminate; destruct Ic. }
  assert (ei <> Completed) as NC.
  { intros ->. apply install_fails_last in Ins.
    rewrite (existsb_false_In failed _ _ Ins Ic) in F. discriminate. }
  destruct ER as [-> _]; [now right|].
  destruct ES as [-> _]; [right; now left|].
  rewrite !app_nil_r, !existsb_app.
  now rewrite VU, IU, VF, IFr, VW, IW.
Qed.

(** ** The install phase and the removal phase *)






(** ** The snapshot *)

Lemma overall_completed ev ei el es :
  overall ev ei el es = Completed ->
  ev = Completed /\ ei = Completed /\ el = Completed /\ es = Completed.
Proof. destruct ev, ei, el; cbn; intros E; try discriminate; auto. Qed.



(** The calls of a run that returned: all four phases, each to its end. *)
Lemma returned_phases {W} (h : env W) fuel config w n :
  how (exec h fuel (sync_deps config) w) = Returned tt n ->
  exists venv inspect loop p,
    calls (exec h fuel (sync_deps config) w)
    = venv ++ inspect ++ loop ++
      [CallRun (pip_freeze_cmd config) true p;
       CallWrite "requirements.txt" (stdout p)]
    /\ venv_calls config venv Completed
    /\ install_calls config inspect Completed
    /\ removal_calls config loop Completed
    /\ returncode p = 0%Z.
Proof.
  intros H.
  pose proof (sync_deps_phases h fuel config w) as P.
  rewrite H in P. cbn [ending_of] in P.
  inversion P as [tv ti tl ts ev ei el es V I R S EI ER ES C O]; clear P.
  apply overall_completed in O. destruct O as (-> & -> & -> & ->).
  inversion S as [ | | |p Z]; subst ts.
  exists tv, ti, tl, p. auto.
Qed.


(** ** Convergence *)

Lemma removal_completed config t :
  removal_calls config t Completed ->
  exists l p js,
    t = l ++ [CallRun (pip_list_cmd config) true p]
    /\ json_loads (stdout p) = Some js
    /\ to_uninstall (dependencies config) (installed_names true js) = [].
Proof.
  remember Completed as e eqn:E. induction 1; try discriminate.
  - exists [], p, js. repeat split; assumption.
  - destruct (IHremoval_calls E) as (l & p' & js' & -> & J & T).
    eexists (_ :: _ :: l), p', js'. repeat split; assumption.
Qed.

Lemma last_report_inspection config tr p js u v :
  json_loads (stdout p) = Some js ->
  is_list u = false -> is_list v = false ->
  last_report (tr ++ [CallRun (pip_list_cmd config) true p] ++ [u; v]) = js.
Proof.
  intros J U V. unfold last_report. rewrite !fold_left_app. cbn [fold_left].
  change (is_list (CallRun (pip_list_cmd config) true p)) with true.
  cbv iota. rewrite J.
  destruct u, v; try reflexivity; try rewrite U; try rewrite V; reflexivity.
Qed.

Lemma to_uninstall_nil deps installed :
  to_uninstall deps installed = [] -> forall x, In x installed -> In x deps.
Proof.
  intros T x I. apply mem_In. destruct (mem x deps) eqn:M; [reflexivity|].
  assert (In x (to_uninstall deps installed))
    by (apply filter_In; now rewrite M).
  rewrite T in H. destruct H.
Qed.

(** C1, as the code has it.  After a run that returns, every package the
    last inspection shows, base packages apart, is a declared one: no
    undeclared package is left.  (That every declared package is shown
    is not checked by the run.) *)
Theorem nothing_undeclared_remains {W} (h : env W) fuel config w n :
  let r := exec h fuel (sync_deps config) w in
  how r = Returned tt n -> nothing_undeclared config (calls r).
Proof.
  cbv zeta. intros H.
  destruct (returned_phases h fuel config w H)
    as (tv & ti & loop & q & C & _ & _ & R & _).
  destruct (removal_completed R) as (l & p & js & -> & J & T).
  intros x. unfold installed_at_end. rewrite C.
  rewrite <- !app_assoc, !app_assoc, <- (app_assoc _ [_] [_; _]).
  rewrite (last_report_inspection config _ p _ _ J) by reflexivity.
  now apply to_uninstall_nil.
Qed.

(** C1, as stated, fails.  The project declares [requests] and [urllib3];
    both are installed, and the run returns; but [urllib3] is required by
    [requests], so no inspection of top-level packages shows it, and the
    installed set the run ends on is not the declared one. *)
Lemma convergence_fails_on_required_package :
  let r := exec scripted 20 (sync_deps requests_project) requests_script in
  how r = Returned tt 14 /\ ~ converged requests_project (calls r).
Proof.
  cbv zeta. split; [vm_compute; reflexivity|]. intros C.
  destruct (C "urllib3") as [_ D].
  assert (I : In "urllib3" (dependencies requests_project))
    by (right; now left).
  apply D in I. vm_compute in I.
  destruct I as [E|[]]. discriminate E.
Qed.

Lemma nothing_undeclared_remains_requests :
  how (exec scripted 20 (sync_deps requests_project) requests_script)
  = Returned tt 14
  /\ nothing_undeclared requests_project
       (calls (exec scripted 20 (sync_deps requests_project) requests_script)).
Proof.
  assert (H : how (exec scripted 20 (sync_deps requests_project) requests_script)
              = Returned tt 14) by (vm_compute; reflexivity).
  split; [exact H|].
  exact (nothing_undeclared_remains scripted 20 requests_project requests_script (n := 14) H).
Defined.

(** A failing install is the last call of its run. *)
Lemma abort_on_first_failure_install :
  let r := exec scripted 20 (sync_deps requests_project) broken_install_script in
  let inspected :=
    [CallIsDir ".venv" true;
     CallRun (pip_list_cmd requests_project) true (ok (pkgs ["pip"; "setuptools"]))] in
  let install :=
    CallRun (pip_install_cmd requests_project ["requests"; "urllib3"]) false failure in
  calls r = inspected ++ install :: []
  /\ failed install = true
  /\ how r = Exits (-1)
  /\ existsb is_uninstall (calls r) = false.
Proof.
  cbv zeta.
  assert (C : calls (exec scripted 20 (sync_deps requests_project)
                       broken_install_script)
              = [CallIsDir ".venv" true;
                 CallRun (pip_list_cmd requests_project) true
                         (ok (pkgs ["pip"; "setuptools"]))]
                ++ CallRun (pip_install_cmd requests_project
                              ["requests"; "urllib3"]) false failure :: [])
    by (vm_compute; reflexivity).
  split; [exact C|]. split; [reflexivity|].
  destruct (abort_on_first_failure scripted 20 requests_project
              broken_install_script _ _ _ C eq_refl)
    as (_ & _ & E & _ & K).
  split; [exact E|]. exact (proj1 (K eq_refl)).
Defined.




(** ** Base packages *)

(** What the removal loop does protect: a name in a batch is the folded
    name of a package whose reported spelling is not that of a base
    package. *)
Lemma to_uninstall_origin deps js x :
  In x (to_uninstall deps (installed_names true js)) ->
  exists d, In d js /\ x = lower (name d) /\ ~ In (name d) base_packages
            /\ ~ In x deps.
Proof.
  unfold to_uninstall, installed_names. intros I.
  apply filter_In in I. destruct I as [I M].
  apply in_map_iff in I. destruct I as (d & <- & I).
  apply filter_In in I. destruct I as [I B]. cbn [negb orb] in B.
  exists d. repeat split; try assumption.
  - apply mem_false. now apply negb_true_iff.
  - apply mem_false. now apply negb_true_iff.
Qed.

(** C4 fails on the code.  The manager reports itself as "Pip"; the
    check against the base packages reads the name as reported, does not
    recognise it, and the folded name [pip] goes into the uninstall
    batch. *)
Theorem capitalised_base_package_uninstalled :
  let r := exec scripted 20 (sync_deps capital_project) capital_script in
  how r = Returned tt 12
  /\ In (CallRun (pip_uninstall_cmd capital_project ["pip"]) false (ok NotCaptured))
        (calls r)
  /\ In "pip" base_packages.
Proof.
  cbv zeta. split; [vm_compute; reflexivity|]. split.
  - vm_compute. right. right. right. now left.
  - now left.
Qed.

(** ** The loop without a bound *)

Lemma stubborn_batch :
  to_uninstall ["requests"]
    (installed_names true
       [{| name := "requests"; version := "1.0" |};
        {| name := "leftover"; version := "1.0" |}])
  = ["leftover"].
Proof. vm_compute. reflexivity. Qed.

Lemma stubborn_turn n :
  exec stubborn (S (S n))
       (removal_turn stubborn_project (dependencies stubborn_project)) tt
  = {| how := Returned (inl tt) n;
       world := tt;
       calls := [CallRun (pip_list_cmd stubborn_project) true
                         (ok (pkgs ["requests"; "leftover"]));
                 CallRun (pip_uninstall_cmd stubborn_project ["leftover"]) false
                         (ok NotCaptured)] |}.
Proof.
  rewrite exec_removal_turn.
  cbn -[to_uninstall installed_names pip_list_cmd pip_uninstall_cmd].
  change (dependencies stubborn_project) with ["requests"].
  rewrite stubborn_batch. reflexivity.
Qed.

Lemma stubborn_loop fuel :
  let r := exec stubborn fuel
             (ITree.iter (fun _ : unit =>
                            removal_turn stubborn_project
                              (dependencies stubborn_project)) tt) tt in
  how r = Running /\ uninstalls (calls r) = (fuel + 1) / 3.
Proof.
  cbv zeta. induction fuel as [fuel IH] using lt_wf_ind.
  destruct fuel as [|[|[|g]]]; try (split; vm_compute; reflexivity).
  rewrite exec_iter, stubborn_turn.
  unfold then_; cbn [how world calls].
  destruct (IH g ltac:(lia)) as [H U].
  split; [exact H|].
  unfold uninstalls in *. cbn [app filter].
  change (is_uninstall (CallRun (pip_list_cmd _) _ _)) with false.
  change (is_uninstall (CallRun (pip_uninstall_cmd _ _) _ _)) with true.
  cbn [List.length]. rewrite U.
  replace (S (S (S g)) + 1) with (g + 1 + 1 * 3) by lia.
  rewrite Nat.div_add by lia. lia.
Qed.

Lemma stubborn_nothing_missing :
  to_install ["requests"]
    (installed_names false
       [{| name := "requests"; version := "1.0" |};
        {| name := "leftover"; version := "1.0" |}])
  = [].
Proof. vm_compute. reflexivity. Qed.

Lemma stubborn_venv n :
  exec stubborn (S n) (ensure_venv stubborn_project false) tt
  = {| how := Returned tt n; world := tt;
       calls := [CallIsDir (venv_dir stubborn_project) true] |}.
Proof.
  unfold ensure_venv. rewrite exec_bind, exec_sys.
  cbn [stubborn]. rewrite then_returned. cbn [negb]. rewrite exec_ret.
  reflexivity.
Qed.

Lemma stubborn_inspection n b :
  exec stubborn (S n) (pip_get_installed stubborn_project b) tt
  = {| how := Returned
                (installed_names b
                   [{| name := "requests"; version := "1.0" |};
                    {| name := "leftover"; version := "1.0" |}]) n;
       world := tt;
       calls := [CallRun (pip_list_cmd stubborn_project) true
                         (ok (pkgs ["requests"; "leftover"]))] |}.
Proof. rewrite exec_pip_get_installed. reflexivity. Qed.

(** C9. The removal loop has no bound and does not look at whether the
    undeclared set shrinks.  In an environment where every command
    succeeds and every inspection shows the same undeclared package, the
    run never returns, exits or raises: however many steps it is given it
    is still running, and it has issued one more uninstall for every
    three steps. *)
Theorem removal_loop_unbounded (fuel : nat) :
  let r := exec stubborn fuel (sync_deps stubborn_project) tt in
  how r = Running /\ uninstalls (calls r) = (fuel - 1) / 3.
Proof.
  cbv zeta. destruct fuel as [|[|g]]; try (split; vm_compute; reflexivity).
  rewrite exec_sync_deps, stubborn_venv, then_returned.
  rewrite stubborn_inspection, then_returned.
  change (dependencies stubborn_project) with ["requests"].
  rewrite stubborn_nothing_missing. cbn [List.length Nat.ltb Nat.leb].
  rewrite exec_ret, then_returned.
  change ["requests"] with (dependencies stubborn_project).
  destruct (stubborn_loop g) as [H U].
  unfold then_. rewrite H. cbn [how calls].
  split; [reflexivity|].
  unfold uninstalls in *. cbn [filter app].
  change (is_uninstall (CallIsDir _ _)) with false.
  change (is_uninstall (CallRun (pip_list_cmd _) _ _)) with false.
  cbv iota. rewrite U. f_equal. lia.
Qed.

(** ** Declared names with capitals *)

Lemma is_upper_lower c : is_upper (lower_ascii c) = false.
Proof. destruct c as [[] [] [] [] [] [] [] []]; reflexivity. Qed.

Lemma has_upper_lower s : has_upper (lower s) = false.
Proof.
  induction s as [|c s IH]; [reflexivity|]. cbn [lower has_upper].
  now rewrite is_upper_lower, IH.
Qed.

(** No name read off an inspection is a name with a capital. *)
Lemma installed_names_folded b js p :
  has_upper p = true -> ~ In p (installed_names b js).
Proof.
  intros U I. unfold installed_names in I.
  apply in_map_iff in I. destruct I as (d & <- & _).
  rewrite has_upper_lower in U. discriminate.
Qed.

Lemma first_split_unique {A} (f : A -> bool) l1 a r1 l2 b r2 :
  l1 ++ a :: r1 = l2 ++ b :: r2 ->
  existsb f l1 = false -> existsb f l2 = false ->
  f a = true -> f b = true ->
  l1 = l2 /\ a = b /\ r1 = r2.
Proof.
  revert l2. induction l1 as [|x l1 IH]; intros [|y l2] E F1 F2 Fa Fb;
    cbn in *.
  - injection E as -> ->. auto.
  - injection E as -> _. apply orb_false_elim in F2. destruct F2. congruence.
  - injection E as -> _. apply orb_false_elim in F1. destruct F1. congruence.
  - injection E as -> E. apply orb_false_elim in F1. apply orb_false_elim in F2.
    destruct (IH l2 E) as (-> & -> & ->); tauto.
Qed.

(** C10. A declared name with a capital is never met by the comparison
    with the folded names an inspection gives.  It is in the install
    diff whatever is installed, so whenever a run goes on after its first
    inspection it goes on with an install whose batch holds the name; and
    it shields nothing in the removal diff, which is the same with the
    entry and without it. *)
Theorem capital_entry_never_matches {W} (h : env W) fuel config w p :
  In p (dependencies config) -> has_upper p = true ->
  let r := exec h fuel (sync_deps config) w in
  (forall b js, In p (to_install (dependencies config) (installed_names b js)))
  /\ (forall js,
        to_uninstall (dependencies config) (installed_names true js)
        = to_uninstall (rm_dependencies (dependencies config) [p])
                       (installed_names true js))
  /\ (forall venv l c rest,
        calls r = venv ++ CallRun (pip_list_cmd config) true l :: c :: rest ->
        existsb is_list venv = false ->
        exists batch q,
          c = CallRun (pip_install_cmd config batch) false q /\ In p batch).
Proof.
  intros D U. cbv zeta.
  assert (A : forall b js,
             In p (to_install (dependencies config) (installed_names b js))).
  { intros b js. apply filter_In. split; [assumption|].
    apply negb_true_iff, mem_false. now apply installed_names_folded. }
  split; [exact A|]. split.
  - intros js. unfold to_uninstall. apply filter_ext_in. intros x I.
    f_equal. unfold rm_dependencies.
    destruct (mem x (dependencies config)) eqn:M; symmetry.
    + apply mem_In. apply filter_In. split; [now apply mem_In|].
      cbn. rewrite orb_false_r. apply negb_true_iff, String.eqb_neq.
      intros ->. now apply (installed_names_folded true js p U).
    + apply mem_false. intros F. apply filter_In in F. destruct F as [F _].
      apply mem_In in F. congruence.
  - intros venv l c rest E V.
    destruct (sync_deps_phases h fuel config w)
      as [tv ti tl ts ev ei el es Vc I R S EI ER ES].
    pose proof (venv_kinds Vc) as (VL & _).
    pose proof (removal_kinds R) as (RI & _).
    pose proof (snapshot_kinds S) as (SL & _).
    destruct I as [ |p0|p0|p0 js Z J T|p0 js Z J T|p0 js q Z J T Zq
                   |p0 js q Z J T Zq].
    + destruct ER as [-> _]; [right; discriminate|].
      destruct ES as [-> _]; [right; left; discriminate|].
      rewrite !app_nil_r in E.
      assert (X : is_list (CallRun (pip_list_cmd config) true l) = false).
      { apply (existsb_false_In is_list tv); [assumption|].
        rewrite E. apply in_or_app. right. now left. }
      discriminate X.
    + destruct ER as [-> _]; [right; discriminate|].
      destruct ES as [-> _]; [right; left; discriminate|].
      cbn [app] in E.
      destruct (first_split_unique is_list _ _ _ _ _ _ E VL V eq_refl eq_refl)
        as (_ & _ & X). discriminate X.
    + destruct ER as [-> _]; [right; discriminate|].
      destruct ES as [-> _]; [right; left; discriminate|].
      cbn [app] in E.
      destruct (first_split_unique is_list _ _ _ _ _ _ E VL V eq_refl eq_refl)
        as (_ & _ & X). discriminate X.
    + specialize (A false js). rewrite T in A. destruct A.
    + destruct ER as [-> _]; [right; discriminate|].
      destruct ES as [-> _]; [right; left; discriminate|].
      cbn [app] in E.
      destruct (first_split_unique is_list _ _ _ _ _ _ E VL V eq_refl eq_refl)
        as (_ & _ & X). discriminate X.
    + cbn [app] in E.
      destruct (first_split_unique is_list _ _ _ _ _ _ E VL V eq_refl eq_refl)
        as (_ & _ & X). injection X as <- _.
      eexists _, q. split; [reflexivity|]. apply A.
    + cbn [app] in E.
      destruct (first_split_unique is_list _ _ _ _ _ _ E VL V eq_refl eq_refl)
        as (_ & _ & X). injection X as <- _.
      eexists _, q. split; [reflexivity|]. apply A.
Qed.

(** "Flask", written by hand into the descriptor, is asked for again
    although it is installed. *)
Lemma capital_entry_never_matches_flask :
  In "Flask" (dependencies handwritten_project)
  /\ has_upper "Flask" = true
  /\ In "Flask"
        (to_install (dependencies handwritten_project)
           (installed_names false [{| name := "Flask"; version := "3.0.0" |}])).
Proof.
  assert (D : In "Flask" (dependencies handwritten_project)) by now left.
  assert (U : has_upper "Flask" = true) by reflexivity.
  split; [exact D|]. split; [exact U|].
  exact (proj1 (capital_entry_never_matches scripted 20 handwritten_project
                  handwritten_script "Flask" D U) false _).
Defined.

(** * More properties of the code *)

(** ** The dependency set under [cmd_add] and [cmd_rm] *)

(** X1. The in-place loop of [to_lowercase] folds every name where it
    stands, and doing it again changes nothing. *)
Theorem to_lowercase_folds (names : list string) :
  to_lowercase names = map lower names
  /\ List.length (to_lowercase names) = List.length names
  /\ to_lowercase (to_lowercase names) = to_lowercase names.
Proof.
  rewrite !to_lowercase_map, length_map, map_map. repeat split.
  apply map_ext. intros n. apply lower_idem.
Qed.

Lemma In_first_seen x l : In x l -> In x (first_seen l).
Proof.
  induction l as [|y l IH]; [easy|]. cbn.
  destruct (String.eqb_spec x y) as [->|D]; [now left|].
  intros [E|I]; [now left; symmetry|]. right.
  apply filter_In. split; [now apply IH|].
  apply negb_true_iff. now apply String.eqb_neq.
Qed.

Lemma NoDup_first_seen l : NoDup (first_seen l).
Proof.
  induction l as [|x l IH]; cbn; constructor.
  - intros I. apply filter_In in I. destruct I as [_ I].
    now rewrite String.eqb_refl in I.
  - now apply NoDup_filter.
Qed.

Lemma NoDup_append {A} (l1 l2 : list A) :
  NoDup l1 -> NoDup l2 -> (forall x, In x l2 -> ~ In x l1) -> NoDup (l1 ++ l2).
Proof.
  induction 1 as [|x l1 N _ IH]; intros N2 D; [assumption|].
  cbn. constructor.
  - intros I. apply in_app_or in I. destruct I as [I|I]; [now apply N|].
    apply (D x I). now left.
  - apply IH; [assumption|]. intros y I J. apply (D y I). now right.
Qed.

(** X2. [cmd_add] and [cmd_rm] keep the dependency set well formed: if the
    declared names are folded and distinct before, they are after. *)
Theorem commands_keep_normalized (deps args : list string) :
  normalized deps ->
  normalized (add_dependencies deps (to_lowercase args))
  /\ normalized (rm_dependencies deps (to_lowercase args)).
Proof.
  intros [N F]. rewrite to_lowercase_map, add_dependencies_spec. split; split.
  - apply NoDup_append; [assumption | apply NoDup_first_seen|].
    intros x I. apply first_seen_In, filter_In in I. destruct I as [_ I].
    now apply mem_false, negb_true_iff.
  - apply Forall_app. split; [assumption|]. apply Forall_forall.
    intros x I. apply first_seen_In, filter_In in I. destruct I as [I _].
    apply in_map_iff in I. destruct I as (n & <- & _). apply lower_idem.
  - now apply NoDup_filter.
  - apply Forall_forall. intros x I. apply filter_In in I.
    rewrite Forall_forall in F. now apply F.
Qed.

Lemma commands_keep_normalized_flask :
  normalized ["requests"; "numpy"]
  /\ normalized (add_dependencies ["requests"; "numpy"]
                   (to_lowercase ["Flask"; "NumPy"]))
  /\ normalized (rm_dependencies ["requests"; "numpy"]
                   (to_lowercase ["NumPy"])).
Proof.
  assert (N : normalized ["requests"; "numpy"]).
  { split; [|repeat constructor].
    repeat constructor; cbn; intuition discriminate. }
  split; [exact N|].
  split.
  - exact (proj1 (@commands_keep_normalized ["requests"; "numpy"]
                    ["Flask"; "NumPy"] N)).
  - exact (proj2 (@commands_keep_normalized ["requests"; "numpy"] ["NumPy"] N)).
Defined.

(** X3. After [cmd_add] every given name is declared, in folded form, and
    nothing that was declared is lost; after [cmd_rm] no given name is
    declared, and nothing is declared that was not before. *)
Theorem add_declares_rm_undeclares (deps args : list string) :
  (forall n, In n args -> In (lower n) (add_dependencies deps (to_lowercase args)))
  /\ (forall p, In p deps -> In p (add_dependencies deps (to_lowercase args)))
  /\ (forall n, In n args ->
        ~ In (lower n) (rm_dependencies deps (to_lowercase args)))
  /\ (forall p, In p (rm_dependencies deps (to_lowercase args)) -> In p deps).
Proof.
  rewrite to_lowercase_map, add_dependencies_spec. repeat split.
  - intros n I. apply in_or_app.
    destruct (mem (lower n) deps) eqn:M; [left; now apply mem_In|].
    right. apply In_first_seen, filter_In. split; [now apply in_map|].
    now rewrite M.
  - intros p I. apply in_or_app. now left.
  - intros n I J. apply filter_In in J. destruct J as [_ J].
    apply negb_true_iff, mem_false in J. apply J. now apply in_map.
  - intros p I. apply filter_In in I. tauto.
Qed.

Lemma to_lowercase_app a b :
  to_lowercase (a ++ b) = to_lowercase a ++ to_lowercase b.
Proof. rewrite !to_lowercase_map. apply map_app. Qed.

Lemma add_nothing_new deps packages :
  (forall x, In x packages -> In x deps) -> add_dependencies deps packages = deps.
Proof.
  intros H. rewrite add_dependencies_spec, filter_none; [apply app_nil_r|].
  intros x I. apply negb_false_iff, mem_In. now apply H.
Qed.

(** X4. Two [cmd_add] in a row declare what one [cmd_add] of all the names
    declares, and adding the same names a second time changes nothing. *)
Theorem add_composes (deps a b : list string) :
  add_dependencies (add_dependencies deps (to_lowercase a)) (to_lowercase b)
  = add_dependencies deps (to_lowercase (a ++ b))
  /\ add_dependencies (add_dependencies deps (to_lowercase a)) (to_lowercase a)
     = add_dependencies deps (to_lowercase a).
Proof.
  split.
  - rewrite to_lowercase_app. unfold add_dependencies. now rewrite fold_left_app.
  - apply add_nothing_new. intros x I.
    rewrite to_lowercase_map in *. rewrite add_dependencies_spec.
    apply in_or_app.
    destruct (mem x deps) eqn:M; [left; now apply mem_In|].
    right. apply In_first_seen, filter_In. split; [assumption | now rewrite M].
Qed.

(** X5. Two [cmd_rm] in a row leave what one [cmd_rm] of all the names
    leaves, in either order, and removing the same names a second time
    changes nothing. *)
Theorem rm_composes (deps a b : list string) :
  rm_dependencies (rm_dependencies deps (to_lowercase a)) (to_lowercase b)
  = rm_dependencies deps (to_lowercase (a ++ b))
  /\ rm_dependencies (rm_dependencies deps (to_lowercase a)) (to_lowercase b)
     = rm_dependencies (rm_dependencies deps (to_lowercase b)) (to_lowercase a)
  /\ rm_dependencies (rm_dependencies deps (to_lowercase a)) (to_lowercase a)
     = rm_dependencies deps (to_lowercase a).
Proof.
  unfold rm_dependencies. repeat split.
  - rewrite to_lowercase_app, <- filter_and. apply filter_ext. intros p.
    unfold mem. rewrite existsb_app, negb_orb. reflexivity.
  - apply filter_filter_comm.
  - apply filter_absorb. tauto.
Qed.

(** ** The commands and the descriptor *)

(** X6. [cmd_add] and [cmd_rm] without a package name stop with
    [exit(-1)] at once: the descriptor is neither read nor written and no
    process is run. *)
Theorem add_rm_need_arguments {W} (h : env W) (fuel : nat) (w : W) :
  let stopped := {| how := Exits (-1); world := w; calls := [] |} in
  exec h fuel (cmd_add []) w = stopped
  /\ exec h fuel (cmd_rm []) w = stopped
  /\ exit_status (how (exec h fuel (cmd_add []) w)) = Some 255%Z.
Proof.
  cbv zeta.
  assert (E : forall fuel, exec h fuel (@exit unit (-1)) w
                           = {| how := Exits (-1); world := w; calls := [] |})
    by (intros f; apply (exec_halt h f (Exit (-1)) w)).
  repeat split; try apply E.
  change (cmd_add []) with (@exit unit (-1)). now rewrite E.
Qed.

Lemma exec_load_none {W} (h : env W) n w w1 :
  h _ LoadJson w = (None, w1) ->
  exec h (S n) load_pypackagejson w
  = {| how := Exits (-1); world := w1; calls := [CallLoad None] |}.
Proof.
  intros L. unfold load_pypackagejson. rewrite exec_bind, exec_sys, L.
  rewrite then_returned. unfold exit. rewrite exec_halt. reflexivity.
Qed.

Lemma then_exits {A B W} c (w : W) tr (f : A -> nat -> W -> result B W) :
  then_ {| how := Exits c; world := w; calls := tr |} f
  = {| how := Exits c; world := w; calls := tr |}.
Proof. reflexivity. Qed.

(** X7. When the descriptor is missing or rejected, [cmd_add], [cmd_rm]
    and [cmd_sync] stop with [exit(-1)] right after trying to read it:
    nothing is saved and no process is run. *)
Theorem commands_need_descriptor {W} (h : env W) (n : nat) (a : string)
    (args : list string) (w w1 : W) :
  h _ LoadJson w = (None, w1) ->
  let stopped := {| how := Exits (-1); world := w1; calls := [CallLoad None] |} in
  exec h (S n) (cmd_add (a :: args)) w = stopped
  /\ exec h (S n) (cmd_rm (a :: args)) w = stopped
  /\ exec h (S n) (cmd_sync args) w = stopped.
Proof.
  intros L. cbv zeta. unfold cmd_add, cmd_rm, cmd_sync.
  cbn [List.length Nat.eqb].
  rewrite !exec_bind, (exec_load_none h n w L), !then_exits. auto.
Qed.

Lemma commands_need_descriptor_flask :
  scripted LoadJson [] = (None, [])
  /\ exec scripted 5 (cmd_add ["flask"]) []
     = {| how := Exits (-1); world := []; calls := [CallLoad None] |}.
Proof.
  split; [reflexivity|].
  exact (proj1 (@commands_need_descriptor _ scripted 4 "flask" [] [] []
                  eq_refl)).
Defined.

(** X8. [cmd_add] and [cmd_rm] write the changed descriptor before they
    run anything, and then reconcile against exactly what they wrote: the
    run is the load, the save, and the run of [sync_deps] on the saved
    descriptor, so the change stays saved however that ends. *)
Theorem commands_save_then_sync {W} (h : env W) (n : nat) (a : string)
    (args : list string) (w w1 : W) (config : PyPackageJson) :
  h _ LoadJson w = (Some config, w1) ->
  let added :=
    set_dependencies config
      (add_dependencies (dependencies config) (to_lowercase (a :: args))) in
  let removed :=
    set_dependencies config
      (rm_dependencies (dependencies config) (to_lowercase (a :: args))) in
  exec h (S (S n)) (cmd_add (a :: args)) w
  = after (CallLoad (Some config))
      (after (CallSave added)
         (exec h n (sync_deps added) (snd (h _ (SaveJson added) w1))))
  /\ exec h (S (S n)) (cmd_rm (a :: args)) w
     = after (CallLoad (Some config))
         (after (CallSave removed)
            (exec h n (sync_deps removed) (snd (h _ (SaveJson removed) w1)))).
Proof.
  intros L. cbv zeta. unfold cmd_add, cmd_rm. cbn [List.length Nat.eqb].
  rewrite !exec_bind, (exec_load h (S n) w L), !then_returned.
  rewrite !exec_bind, !exec_save, !then_returned.
  split; reflexivity.
Qed.

Lemma commands_save_then_sync_flask :
  described flask_project LoadJson flask_script = (Some flask_project, flask_script)
  /\ nth 1 (calls (exec (described flask_project) 20 (cmd_add ["NumPy"])
                     flask_script))
         (CallLoad None)
     = CallSave {| venv_dir := "env"; dependencies := ["flask"; "numpy"] |}.
Proof.
  split; [reflexivity|].
  rewrite (proj1 (@commands_save_then_sync _ (described flask_project) 18
                    "NumPy" [] flask_script flask_script flask_project eq_refl)).
  reflexivity.
Defined.

(** ** What a reconciliation touches *)

Ltac confine_calls :=
  repeat first [apply Forall_nil | apply Forall_cons]; cbn; auto.

Lemma venv_confined config t e : venv_calls config t e -> Forall (confined config) t.
Proof. destruct 1; confine_calls. Qed.

Lemma install_confined config t e :
  install_calls config t e -> Forall (confined config) t.
Proof. destruct 1; confine_calls. Qed.

Lemma removal_confined config t e :
  removal_calls config t e -> Forall (confined config) t.
Proof. induction 1; confine_calls. Qed.

Lemma snapshot_confined config t e :
  snapshot_calls config t e -> Forall (confined config) t.
Proof. destruct 1; confine_calls. Qed.

Lemma phases_confined config tr e : phases config tr e -> Forall (confined config) tr.
Proof.
  destruct 1 as [tv ti tl ts ev ei el es V I R S _ _ _].
  repeat (apply Forall_app; split);
    eauto using venv_confined, install_confined, removal_confined,
                snapshot_confined.
Qed.

(** X9. [sync_deps] keeps to the project: the only directory it looks up
    is the virtual environment, the only commands it runs are the
    creation of that environment and the [pip] inside it, the only file
    it writes is [requirements.txt], and it neither reads nor writes the
    descriptor. *)
Theorem sync_deps_confined {W} (h : env W) (fuel : nat)
    (config : PyPackageJson) (w : W) :
  Forall (confined config) (calls (exec h fuel (sync_deps config) w)).
Proof. eapply phases_confined, sync_deps_phases. Qed.

Lemma confined_no_save config tr :
  Forall (confined config) tr -> existsb is_save tr = false.
Proof.
  induction 1 as [|c tr C _ IH]; [reflexivity|]. cbn.
  rewrite IH. destruct c; try reflexivity; destruct C.
Qed.

(** X10. [cmd_sync] reads the descriptor, reconciles against it, and
    never writes it; its arguments change nothing. *)
Theorem cmd_sync_reads_only {W} (h : env W) (n : nat) (args : list string)
    (w w1 : W) (config : PyPackageJson) :
  h _ LoadJson w = (Some config, w1) ->
  exec h (S n) (cmd_sync args) w
  = after (CallLoad (Some config)) (exec h n (sync_deps config) w1)
  /\ existsb is_save (calls (exec h (S n) (cmd_sync args) w)) = false.
Proof.
  intros L.
  assert (E : exec h (S n) (cmd_sync args) w
              = after (CallLoad (Some config)) (exec h n (sync_deps config) w1)).
  { unfold cmd_sync. now rewrite exec_bind, (exec_load h n w L), then_returned. }
  split; [exact E|]. rewrite E. cbn.
  eapply confined_no_save, phases_confined, sync_deps_phases.
Qed.

Lemma cmd_sync_reads_only_flask :
  described flask_project LoadJson flask_script = (Some flask_project, flask_script)
  /\ existsb is_save
       (calls (exec (described flask_project) 20 (cmd_sync ["--force"])
                 flask_script)) = false.
Proof.
  split; [reflexivity|].
  exact (proj2 (@cmd_sync_reads_only _ (described flask_project) 19 ["--force"]
                  flask_script flask_script flask_project eq_refl)).
Defined.

Ltac follow_calls :=
  repeat first [apply Forall_nil | apply Forall_cons];
  (split; intros K; try discriminate K; cbn [batch_of skipn app];
   unfold pip_install_cmd, pip_uninstall_cmd; cbn [skipn app]; intros x I;
   apply filter_In in I; destruct I as [I M]; try assumption;
   now apply mem_false, negb_true_iff).

Lemma venv_follows config t e :
  venv_calls config t e -> Forall (follows_declaration (dependencies config)) t.
Proof. destruct 1; follow_calls. Qed.

Lemma install_follows config t e :
  install_calls config t e -> Forall (follows_declaration (dependencies config)) t.
Proof. destruct 1; follow_calls. Qed.

Lemma removal_follows config t e :
  removal_calls config t e -> Forall (follows_declaration (dependencies config)) t.
Proof.
  induction 1; try solve [follow_calls].
  apply Forall_cons; [|apply Forall_cons; [|assumption]]; follow_calls.
Qed.

Lemma snapshot_follows config t e :
  snapshot_calls config t e -> Forall (follows_declaration (dependencies config)) t.
Proof. destruct 1; follow_calls. Qed.

(** X11. Whatever the environment answers, [sync_deps] installs only
    names that are declared and uninstalls only names that are not: a
    declared package is never passed to [pip uninstall]. *)
Theorem batches_follow_declaration {W} (h : env W) (fuel : nat)
    (config : PyPackageJson) (w : W) (c : call) :
  In c (calls (exec h fuel (sync_deps config) w)) ->
  (is_install c = true ->
   forall x, In x (batch_of c) -> In x (dependencies config))
  /\ (is_uninstall c = true ->
      forall x, In x (batch_of c) -> ~ In x (dependencies config)).
Proof.
  intros I.
  destruct (sync_deps_phases h fuel config w)
    as [tv ti tl ts ev ei el es V Ins R S _ _ _].
  assert (F : Forall (follows_declaration (dependencies config))
                     (tv ++ ti ++ tl ++ ts)).
  { repeat (apply Forall_app; split);
      eauto using venv_follows, install_follows, removal_follows,
                  snapshot_follows. }
  rewrite Forall_forall in F. exact (F c I).
Qed.

Lemma batches_follow_declaration_orphan :
  let c := CallRun (pip_uninstall_cmd orphan_project ["b"]) false (ok NotCaptured) in
  In c (calls (exec scripted 20 (sync_deps orphan_project) orphan_script))
  /\ forall x, In x (batch_of c) -> ~ In x (dependencies orphan_project).
Proof.
  cbv zeta.
  assert (I : In (CallRun (pip_uninstall_cmd orphan_project ["b"]) false
                          (ok NotCaptured))
                 (calls (exec scripted 20 (sync_deps orphan_project)
                           orphan_script)))
    by (vm_compute; right; right; right; now left).
  split; [exact I|].
  exact (proj2 (@batches_follow_declaration _ scripted 20 orphan_project
                  orphan_script _ I) eq_refl).
Defined.

(** ** The lockfile *)

Lemma files_after_no_write tr fs :
  existsb is_write tr = false -> files_after tr fs = fs.
Proof.
  unfold files_after. revert fs.
  induction tr as [|c tr IH]; intros fs E; [reflexivity|].
  cbn in E. apply orb_false_elim in E. destruct E as [C E].
  cbn [fold_left]. destruct c; try discriminate C; now apply IH.
Qed.

(** X12. The lockfile is written only by a run that returns: a run that
    exits, raises or is still under way has left every file as it was. *)
Theorem lockfile_only_on_success {W} (h : env W) (fuel : nat)
    (config : PyPackageJson) (w : W) (fs : files) :
  (forall n, how (exec h fuel (sync_deps config) w) <> Returned tt n) ->
  files_after (calls (exec h fuel (sync_deps config) w)) fs = fs.
Proof.
  intros N. apply files_after_no_write.
  pose proof (sync_deps_phases h fuel config w) as P.
  assert (E : ending_of (how (exec h fuel (sync_deps config) w)) <> Completed).
  { destruct (how (exec h fuel (sync_deps config) w)) as [[] n| | |];
      try discriminate. now contradiction (N n). }
  destruct P as [tv ti tl ts ev ei el es V I R S EI ER ES].
  pose proof (venv_kinds V) as (_ & _ & _ & _ & VW).
  pose proof (install_kinds I) as (_ & _ & IW).
  pose proof (removal_kinds R) as (_ & _ & RW).
  rewrite !existsb_app, VW, IW, RW. cbn [orb].
  destruct S as [ |p|p|p]; try reflexivity.
  exfalso. apply E. destruct ev, ei, el; try reflexivity;
    destruct ES as [X _];
    try (left; discriminate); try (right; left; discriminate);
    try (right; right; discriminate); discriminate X.
Qed.

Lemma lockfile_only_on_success_broken :
  (forall n, how (exec scripted 20 (sync_deps requests_project)
                    broken_install_script) <> Returned tt n)
  /\ files_after (calls (exec scripted 20 (sync_deps requests_project)
                           broken_install_script))
                 (fun _ => Some (Text "old")) "requirements.txt"
     = Some (Text "old").
Proof.
  assert (N : forall n, how (exec scripted 20 (sync_deps requests_project)
                               broken_install_script) <> Returned tt n)
    by (intros n; vm_compute; discriminate).
  split; [exact N|].
  now rewrite (@lockfile_only_on_success _ scripted 20 requests_project
                 broken_install_script (fun _ => Some (Text "old")) N).
Defined.

(** ** Base packages, when they are named as expected *)

Lemma removal_batches config t e :
  removal_calls config t e ->
  forall c, In c t -> is_uninstall c = true ->
  exists p js,
    In (CallRun (pip_list_cmd config) true p) t
    /\ json_loads (stdout p) = Some js
    /\ batch_of c = to_uninstall (dependencies config) (installed_names true js).
Proof.
  induction 1 as [ |p|p|p js|p js|p js q Z J N Zq|p js q rest e Z J N Zq R IH];
    intros c I U;
    try (destruct I as [<-|[]]; discriminate U);
    try contradiction.
  - destruct I as [<-|[<-|[]]]; [discriminate U|].
    exists p, js. repeat split; [now left | assumption].
  - destruct I as [<-|[<-|I]]; [discriminate U| |].
    + exists p, js. repeat split; [now left | assumption].
    + destruct (IH c I U) as (p' & js' & I' & J' & B).
      exists p', js'. repeat split; [right; now right | assumption | assumption].
Qed.

(** X13. When the inspections show the base packages under their own
    names, as [pip] does, no uninstall batch of any run holds [pip] or
    [setuptools], whether they are declared or not. *)
Theorem base_packages_kept_when_named_exactly {W} (h : env W) (fuel : nat)
    (config : PyPackageJson) (w : W) (c : call) (x : string) :
  base_names_exact (calls (exec h fuel (sync_deps config) w)) ->
  In c (calls (exec h fuel (sync_deps config) w)) ->
  is_uninstall c = true -> In x (batch_of c) ->
  ~ In x base_packages.
Proof.
  intros B I U X.
  destruct (sync_deps_phases h fuel config w)
    as [tv ti tl ts ev ei el es V Ins R S _ _ _].
  pose proof (venv_kinds V) as (_ & _ & VU & _).
  pose proof (install_kinds Ins) as (IU & _).
  pose proof (snapshot_kinds S) as (_ & _ & SU).
  assert (Il : In c tl).
  { repeat (apply in_app_or in I; destruct I as [I|I]); try assumption;
      [ rewrite (existsb_false_In _ _ _ VU I) in U
      | rewrite (existsb_false_In _ _ _ IU I) in U
      | rewrite (existsb_false_In _ _ _ SU I) in U ]; discriminate. }
  destruct (removal_batches R c Il U) as (p & js & Ip & J & E).
  rewrite E in X. apply to_uninstall_origin in X.
  destruct X as (d & D & -> & NB & _). intros K. apply NB.
  apply (B (pip_list_cmd config) true p js d); try assumption; try reflexivity.
  apply in_or_app. right. apply in_or_app. right. apply in_or_app. now left.
Qed.

Lemma orphan_base_names_exact :
  base_names_exact (calls (exec scripted 20 (sync_deps orphan_project)
                             orphan_script)).
Proof.
  intros cmd capture p js d I L J D K.
  vm_compute in I.
  repeat (destruct I as [I|I];
          [ try discriminate I; injection I as <- <- <-;
            vm_compute in L; try discriminate L;
            vm_compute in J; injection J as <-;
            repeat (destruct D as [<-|D];
                    [vm_compute in K |- *; intuition (auto; discriminate)|]);
            destruct D
          | ]).
  destruct I.
Defined.

Lemma base_packages_kept_orphan :
  let c := CallRun (pip_uninstall_cmd orphan_project ["b"]) false (ok NotCaptured) in
  In c (calls (exec scripted 20 (sync_deps orphan_project) orphan_script))
  /\ is_uninstall c = true /\ In "b" (batch_of c) /\ ~ In "b" base_packages.
Proof.
  cbv zeta.
  assert (I : In (CallRun (pip_uninstall_cmd orphan_project ["b"]) false
                          (ok NotCaptured))
                 (calls (exec scripted 20 (sync_deps orphan_project)
                           orphan_script)))
    by (vm_compute; right; right; right; now left).
  assert (X : In "b" (batch_of (CallRun (pip_uninstall_cmd orphan_project ["b"])
                                        false (ok NotCaptured))))
    by now left.
  split; [exact I|]. split; [reflexivity|]. split; [exact X|].
  exact (@base_packages_kept_when_named_exactly _ scripted 20 orphan_project
           orphan_script _ "b" orphan_base_names_exact I eq_refl X).
Defined.

(** ** The virtual environment comes first *)

Lemma prefix_before {A} (f : A -> bool) t rest l1 c l2 :
  t ++ rest = l1 ++ c :: l2 -> existsb f t = false -> f c = true ->
  exists l', l1 = t ++ l' /\ rest = l' ++ c :: l2.
Proof.
  revert l1. induction t as [|y t IH]; intros l1 E F C.
  - exists l1. auto.
  - cbn in F. apply orb_false_elim in F. destruct F as [Fy Ft].
    destruct l1 as [|z l1]; cbn in E.
    + injection E as -> _. congruence.
    + injection E as -> E. destruct (IH l1 E Ft C) as (l' & -> & ->).
      exists l'. auto.
Qed.

Lemma venv_kinds_pip config t e : venv_calls config t e -> existsb is_pip t = false.
Proof. destruct 1; reflexivity. Qed.

(** X14. [sync_deps] runs no [pip] before the virtual environment is
    there: every call of [pip] comes after the directory was found, or
    was missing and has been created by a command that succeeded. *)
Theorem venv_before_pip {W} (h : env W) (fuel : nat) (config : PyPackageJson)
    (w : W) (l1 l2 : list call) (c : call) :
  calls (exec h fuel (sync_deps config) w) = l1 ++ c :: l2 ->
  is_pip c = true ->
  venv_ready config l1.
Proof.
  intros E C.
  destruct (sync_deps_phases h fuel config w)
    as [tv ti tl ts ev ei el es V I R S EI ER ES].
  destruct (prefix_before is_pip _ _ _ _ _ E (venv_kinds_pip V) C)
    as (l' & -> & Erest).
  destruct V as [ | |  |p Z|p Z].
  - destruct EI as [-> _]; [discriminate|].
    destruct ER as [-> _]; [left; discriminate|].
    destruct ES as [-> _]; [left; discriminate|].
    destruct l'; discriminate Erest.
  - exists l'. now left.
  - destruct EI as [-> _]; [discriminate|].
    destruct ER as [-> _]; [left; discriminate|].
    destruct ES as [-> _]; [left; discriminate|].
    destruct l'; discriminate Erest.
  - exists l'. right. exists p. auto.
  - destruct EI as [-> _]; [discriminate|].
    destruct ER as [-> _]; [left; discriminate|].
    destruct ES as [-> _]; [left; discriminate|].
    destruct l'; discriminate Erest.
Qed.

Lemma venv_before_pip_missing :
  let r := exec scripted 20 (sync_deps missing_project) missing_script in
  let l1 :=
    [CallIsDir ".venv" true;
     CallRun (pip_list_cmd missing_project) true (ok (pkgs ["pip"; "setuptools"]))] in
  let c := CallRun (pip_install_cmd missing_project ["requests"]) false
                   (ok NotCaptured) in
  exists l2, calls r = l1 ++ c :: l2 /\ is_pip c = true /\ venv_ready missing_project l1.
Proof.
  cbv zeta. eexists.
  assert (E : calls (exec scripted 20 (sync_deps missing_project) missing_script)
              = [CallIsDir ".venv" true;
                 CallRun (pip_list_cmd missing_project) true
                         (ok (pkgs ["pip"; "setuptools"]))]
                ++ CallRun (pip_install_cmd missing_project ["requests"]) false
                           (ok NotCaptured)
                   :: skipn 3 (calls (exec scripted 20 (sync_deps missing_project)
                                        missing_script)))
    by (vm_compute; reflexivity).
  split; [exact E|]. split; [reflexivity|].
  exact (@venv_before_pip _ scripted 20 missing_project missing_script _ _ _
           E eq_refl).
Defined.

(** ** Convergence of the removal loop *)

Section Termination.
Context {W : Type} (h : env W).

Lemma then_how {A B} (r : result A W) (f : A -> nat -> W -> result B W) a n :
  how r = Returned a n ->
  how (then_ r f) = how (f a n (world r))
  /\ world (then_ r f) = world (f a n (world r)).
Proof. intros E. unfold then_. rewrite E. auto. Qed.

Lemma returns_ret {R} (r : R) w : returns h (Ret r) w r w.
Proof. exists 0. intros j. rewrite exec_ret. auto. Qed.

Lemma returns_bind {A B} (t : itree pyE A) (k : A -> itree pyE B) w a w1 b w2 :
  returns h t w a w1 -> returns h (k a) w1 b w2 ->
  returns h (ITree.bind t k) w b w2.
Proof.
  intros [f1 H1] [f2 H2]. exists (f1 + f2). intros j.
  rewrite exec_bind, <- Nat.add_assoc.
  destruct (H1 (f2 + j)) as [E1 E2].
  destruct (then_how (exec h (f1 + (f2 + j)) t w)
              (fun a n w' => exec h n (k a) w') E1) as [-> ->].
  rewrite E2. apply H2.
Qed.

Lemma terminates_bind {A B} (t : itree pyE A) (k : A -> itree pyE B) w :
  terminates h t w -> (forall a w1, terminates h (k a) w1) ->
  terminates h (ITree.bind t k) w.
Proof.
  intros (a & w1 & H1) K. destruct (K a w1) as (b & w2 & H2).
  exists b, w2. eapply returns_bind; eassumption.
Qed.

Lemma terminates_ret {R} (r : R) w : terminates h (Ret r) w.
Proof. exists r, w. apply returns_ret. Qed.

Lemma terminates_sys {T} (e : sysE T) w : terminates h (sys e) w.
Proof.
  exists (fst (h e w)), (snd (h e w)), 1. intros j.
  rewrite exec_sys. cbn [Nat.add]. destruct (h e w). auto.
Qed.

Hypothesis succeed : all_succeed h.

Lemma terminates_run cmd capture w : terminates h (run cmd false capture) w.
Proof.
  pose proof (succeed cmd capture w) as Z.
  destruct (h (SpRun cmd capture) w) as [p w'] eqn:E. cbn in Z.
  exists (returncode p, stdout p), w', 1. intros j.
  rewrite exec_run. cbn [Nat.add]. rewrite E, Z. auto.
Qed.

Lemma terminates_run_unit cmd w : terminates h (run cmd false false ;; Ret tt) w.
Proof.
  apply terminates_bind; [apply terminates_run|].
  intros a w1. apply terminates_ret.
Qed.

Lemma terminates_ensure_venv config b w : terminates h (ensure_venv config b) w.
Proof.
  unfold ensure_venv. apply terminates_bind; [apply terminates_sys|].
  intros [] w1; cbn [negb]; [apply terminates_ret|apply terminates_run_unit].
Qed.

Lemma terminates_pip_freeze config w : terminates h (pip_freeze config) w.
Proof.
  unfold pip_freeze. apply terminates_bind; [apply terminates_run|].
  intros [rc out] w1. apply terminates_sys.
Qed.

Variable config : PyPackageJson.
Hypothesis decode : decodable h config.

Lemma terminates_pip_get_installed b w :
  terminates h (pip_get_installed config b) w.
Proof.
  pose proof (succeed (pip_list_cmd config) true w) as Z.
  pose proof (decode w) as D.
  destruct (h (SpRun (pip_list_cmd config) true) w) as [p w'] eqn:E.
  cbn in Z, D. destruct (json_loads (stdout p)) as [js|] eqn:J; [|easy].
  exists (installed_names b js), w', 1. intros j.
  rewrite exec_pip_get_installed. cbn [Nat.add]. rewrite E, Z, J. auto.
Qed.

Variable m : W -> nat.
Hypothesis progress : rounds_progress h config m.

Lemma terminates_removal_loop k w :
  m w <= k ->
  terminates h
    (ITree.iter (fun _ : unit => removal_turn config (dependencies config)) tt) w.
Proof.
  revert w. induction k as [|k IH]; intros w M.
  all: pose proof (succeed (pip_list_cmd config) true w) as Z.
  all: pose proof (decode w) as D.
  all: pose proof (progress w) as P.
  all: destruct (h (SpRun (pip_list_cmd config) true) w) as [p w1] eqn:E.
  all: cbn [fst snd] in Z, D, P.
  all: destruct (json_loads (stdout p)) as [js|] eqn:J; [|easy].
  all: specialize (P js eq_refl); cbv zeta in P.
  all: destruct (to_uninstall (dependencies config) (installed_names true js))
         as [|x batch] eqn:T.
  all: try solve [exists tt, w1, 1; intros j;
                  rewrite exec_iter, exec_removal_turn; cbn [Nat.add];
                  rewrite E, Z, J; cbv zeta; rewrite T; cbn; auto].
  - specialize (P ltac:(discriminate)). lia.
  - specialize (P ltac:(discriminate)).
    pose proof (succeed (pip_uninstall_cmd config (x :: batch)) false w1) as Zq.
    destruct (h (SpRun (pip_uninstall_cmd config (x :: batch)) false) w1)
      as [q w2] eqn:Eq.
    cbn [fst snd] in P, Zq.
    destruct (IH w2 ltac:(lia)) as ([] & w' & f & H).
    exists tt, w', (3 + f). intros j.
    rewrite exec_iter, exec_removal_turn. cbn [Nat.add].
    rewrite E, Z, J. cbv zeta. rewrite T. cbn [List.length Nat.eqb].
    rewrite Eq, Zq.
    unfold then_. cbn [how world calls]. apply H.
Qed.

Lemma terminates_sync_deps w : terminates h (sync_deps config) w.
Proof.
  unfold sync_deps.
  apply terminates_bind; [apply terminates_ensure_venv|]. intros _ w1.
  apply terminates_bind; [apply terminates_pip_get_installed|].
  intros installed w2.
  apply terminates_bind.
  { destruct (0 <? _)%nat; [apply terminates_run_unit|apply terminates_ret]. }
  intros _ w3.
  apply terminates_bind; [apply (terminates_removal_loop (k := m w3)); lia|].
  intros _ w4. apply terminates_pip_freeze.
Qed.

End Termination.

(** X15. [sync_deps] comes to an end whenever the environment lets it: if
    every command succeeds, every inspection can be decoded, and every
    removal round brings some measure of the environment down, the run
    returns once it is given steps enough, and then with any more. *)
Theorem sync_deps_returns_when_rounds_progress {W} (h : env W)
    (config : PyPackageJson) (m : W -> nat) (w : W) :
  all_succeed h -> decodable h config -> rounds_progress h config m ->
  exists fuel, forall j,
    how (exec h (fuel + j) (sync_deps config) w) = Returned tt j.
Proof.
  intros S D P.
  destruct (terminates_sync_deps S D P w) as ([] & w' & f & H).
  exists f. intros j. apply H.
Qed.

(** Three leftovers, removed one round after the other. *)
Lemma sync_deps_returns_draining :
  all_succeed draining /\ decodable draining missing_project
  /\ rounds_progress draining missing_project (fun w => w)
  /\ exists fuel, forall j,
       how (exec draining (fuel + j) (sync_deps missing_project) 3)
       = Returned tt j.
Proof.
  assert (S : all_succeed draining)
    by (intros cmd [] w; reflexivity).
  assert (D : decodable draining missing_project)
    by (intros w; cbn; discriminate).
  assert (P : rounds_progress draining missing_project (fun w => w)).
  { intros [|k] js J w1 batch N.
    - exfalso. apply N. vm_compute in J. injection J as <-.
      vm_compute. reflexivity.
    - cbn. lia. }
  split; [exact S|]. split; [exact D|]. split; [exact P|].
  exact (@sync_deps_returns_when_rounds_progress _ draining missing_project
           (fun w => w) 3 S D P).
Defined.

(** ** An inspection that cannot be decoded *)

Lemma garbled_not_list c : is_list c = false -> garbled c = false.
Proof. intros L. destruct c; try reflexivity. cbn [garbled]. now rewrite L. Qed.

Lemma garbled_failed cmd capture p :
  returncode p <> 0%Z -> garbled (CallRun cmd capture p) = false.
Proof.
  intros Z. apply Z.eqb_neq in Z. cbn [garbled]. rewrite Z.
  now rewrite andb_false_r.
Qed.

Lemma garbled_decoded cmd capture p js :
  json_loads (stdout p) = Some js -> garbled (CallRun cmd capture p) = false.
Proof. intros J. cbn [garbled]. rewrite J. now rewrite andb_false_r. Qed.

Lemma garbled_inspection config p :
  returncode p = 0%Z -> json_loads (stdout p) = None ->
  garbled (CallRun (pip_list_cmd config) true p) = true.
Proof. intros Z J. cbn [garbled]. rewrite Z, J. reflexivity. Qed.

Ltac garbled_case :=
  cbn [garbled_last existsb orb];
  repeat match goal with
         | J : json_loads (stdout ?p) = Some _ |- context [garbled (CallRun _ _ ?p)] =>
             rewrite (@garbled_decoded _ _ p _ J)
         | Z : returncode ?p <> 0%Z |- context [garbled (CallRun _ _ ?p)] =>
             rewrite (@garbled_failed _ _ p Z)
         end;
  rewrite ?garbled_not_list by reflexivity;
  try reflexivity.

Lemma venv_garbled_last config t e : venv_calls config t e -> garbled_last t e.
Proof. destruct 1; garbled_case. Qed.

Lemma snapshot_garbled_last config t e : snapshot_calls config t e -> garbled_last t e.
Proof. destruct 1; garbled_case. Qed.

Lemma install_garbled_last config t e : install_calls config t e -> garbled_last t e.
Proof.
  destruct 1; garbled_case.
  split; [reflexivity|]. eexists [], _. repeat split.
  now apply garbled_inspection.
Qed.

Lemma garbled_last_round a b rest e :
  garbled a = false -> garbled b = false ->
  garbled_last rest e -> garbled_last (a :: b :: rest) e.
Proof.
  intros A B. destruct e; cbn [garbled_last existsb]; rewrite ?A, ?B; auto.
  intros [C (l & c & E & L & F)]. split; [assumption|].
  exists (a :: b :: l), c. subst rest. cbn. rewrite A, B. auto.
Qed.

Lemma removal_garbled_last config t e : removal_calls config t e -> garbled_last t e.
Proof.
  induction 1; try solve [garbled_case].
  - garbled_case. split; [reflexivity|]. eexists [], _. repeat split.
    now apply garbled_inspection.
  - apply garbled_last_round; [|now apply garbled_not_list|assumption].
    eapply garbled_decoded; eassumption.
Qed.

Lemma garbled_last_after t u e :
  existsb garbled t = false -> garbled_last u e -> garbled_last (t ++ u) e.
Proof.
  intros T. destruct e; cbn [garbled_last]; rewrite ?existsb_app, ?T; auto.
  intros [C (l & c & E & L & F)]. split; [assumption|].
  exists (t ++ l), c. subst u. rewrite existsb_app, T, L, app_assoc. auto.
Qed.

Lemma phases_garbled_last config tr e : phases config tr e -> garbled_last tr e.
Proof.
  destruct 1 as [tv ti tl ts ev ei el es V I R S EI ER ES].
  apply venv_garbled_last in V. apply install_garbled_last in I.
  apply removal_garbled_last in R. apply snapshot_garbled_last in S.
  destruct ev;
    try (destruct EI as [-> ->]; [discriminate|];
         destruct ER as [-> ->]; [left; discriminate|];
         destruct ES as [-> ->]; [left; discriminate|];
         now rewrite !app_nil_r).
  apply garbled_last_after; [exact V|].
  destruct ei;
    try (destruct ER as [-> ->]; [right; discriminate|];
         destruct ES as [-> ->]; [right; left; discriminate|];
         now rewrite !app_nil_r).
  apply garbled_last_after; [exact I|].
  destruct el;
    try (destruct ES as [-> ->]; [right; right; discriminate|];
         now rewrite !app_nil_r).
  apply garbled_last_after; [exact R|]. exact S.
Qed.

(** X16. An inspection whose output [json.loads] rejects ends the run:
    the exception is not caught, so that inspection is the last call,
    nothing is installed, removed or written after it, and the run does
    not end by [exit]. *)
Theorem garbled_inspection_ends_run {W} (h : env W) (fuel : nat)
    (config : PyPackageJson) (w : W) (before after : list call) (c : call) :
  calls (exec h fuel (sync_deps config) w) = before ++ c :: after ->
  garbled c = true ->
  after = []
  /\ how (exec h fuel (sync_deps config) w) = Raises "JSONDecodeError"
  /\ existsb garbled before = false.
Proof.
  intros E G.
  pose proof (phases_garbled_last (sync_deps_phases h fuel config w)) as L.
  assert (I : In c (calls (exec h fuel (sync_deps config) w)))
    by (rewrite E; apply in_or_app; right; now left).
  destruct (how (exec h fuel (sync_deps config) w)) as [u n|code|x|] eqn:H;
    cbn [ending_of garbled_last] in L;
    try (rewrite (existsb_false_In garbled _ c L I) in G; discriminate).
  destruct L as [-> (l & c' & E' & L & F')].
  rewrite E in E'.
  destruct (last_is_unique garbled _ _ _ _ _ E' L G) as (-> & -> & ->).
  auto.
Qed.

Lemma garbled_inspection_ends_run_text :
  let r := exec scripted 20 (sync_deps missing_project) [ok (Text "WARNING")] in
  exists c, calls r = [CallIsDir ".venv" true] ++ c :: []
            /\ garbled c = true /\ how r = Raises "JSONDecodeError".
Proof.
  cbv zeta. eexists.
  assert (E : calls (exec scripted 20 (sync_deps missing_project)
                       [ok (Text "WARNING")])
              = [CallIsDir ".venv" true]
                ++ CallRun (pip_list_cmd missing_project) true (ok (Text "WARNING"))
                   :: [])
    by (vm_compute; reflexivity).
  split; [exact E|]. split; [reflexivity|].
  exact (proj1 (proj2 (@garbled_inspection_ends_run _ scripted 20 missing_project
                         [ok (Text "WARNING")] _ _ _ E eq_refl))).
Defined.

(** ** Running a command *)

(** X17. [run] starts exactly one process, piping its output when asked
    to; with [can_fail] it gives the return code and the output back
    whatever they are, and without it calls [exit(-1)] exactly when the
    return code is not zero. *)
Theorem run_contract {W} (h : env W) (n : nat) (cmd : list string)
    (can_fail capture_stdout : bool) (w : W) :
  let p := fst (h _ (SpRun cmd capture_stdout) w) in
  let r := exec h (S n) (run cmd can_fail capture_stdout) w in
  calls r = [CallRun cmd capture_stdout p]
  /\ world r = snd (h _ (SpRun cmd capture_stdout) w)
  /\ how r = (if negb can_fail && negb (returncode p =? 0)%Z
              then Exits (-1)
              else Returned (returncode p, stdout p) n).
Proof.
  cbv zeta. unfold run. rewrite exec_bind, exec_sys.
  destruct (h _ (SpRun cmd capture_stdout) w) as [p w']. cbn [fst snd].
  rewrite then_returned, exec_bind.
  destruct can_fail; cbn [negb andb].
  - rewrite !exec_ret, then_returned, exec_ret. auto.
  - destruct (returncode p =? 0)%Z; cbn [negb].
    + rewrite !exec_ret, then_returned, exec_ret. auto.
    + unfold exit. rewrite exec_halt. auto.
Qed.

(** ** Reading the descriptor *)

(** X18. [load_pypackagejson] accepts a file exactly when it holds an
    object whose [venv_dir] is a string and whose [dependencies] is a
    list, is [null] or is missing; what it returns then has that string
    and that list, the empty list when there was none.  A file it rejects
    is rejected with at least one error to print. *)
Theorem descriptor_accepted_iff (pypackagejson v d : json) :
  (check_pypackagejson pypackagejson = Config v d <->
   exists members dir,
     pypackagejson = JObject members
     /\ dict_get members "venv_dir" = JString dir /\ v = JString dir
     /\ ((dict_get members "dependencies" = JNull /\ d = JArray [])
         \/ exists items,
              dict_get members "dependencies" = JArray items
              /\ d = JArray items))
  /\ check_pypackagejson pypackagejson <> Invalid [].
Proof.
  split; [split|].
  - unfold check_pypackagejson. destruct pypackagejson as [ | | | | |members];
      try discriminate.
    destruct (dict_get members "venv_dir") as [ |b1|n1|dir|l1|m1] eqn:V;
      destruct (dict_get members "dependencies") as [ |b2|n2|s2|items|m2] eqn:D;
      cbn; intros E; try discriminate E; injection E as <- <-;
      exists members, dir; repeat split; try assumption; eauto.
  - intros (members & dir & -> & V & -> & [[D ->]|(items & D & ->)]);
      unfold check_pypackagejson; rewrite V, D; reflexivity.
  - unfold check_pypackagejson. destruct pypackagejson as [ | | | | |members];
      try discriminate.
    destruct (dict_get members "venv_dir");
      destruct (dict_get members "dependencies"); cbn; discriminate.
Qed.

(** X19. What the commands save is what they load: the descriptor
    written for a project is accepted when read back, with the same
    directory and the same names in the same order. *)
Theorem descriptor_round_trip (config : PyPackageJson) :
  load_from (Some (dump config))
  = Config (JString (venv_dir config))
           (JArray (map JString (dependencies config))).
Proof. reflexivity. Qed.

(** X20. Only [venv_dir] and [dependencies] are read from the descriptor:
    a member under any other key changes nothing, whatever it holds. *)
Theorem descriptor_ignores_other_keys (key : string) (value : json)
    (members : list (string * json)) :
  key <> "venv_dir" -> key <> "dependencies" ->
  check_pypackagejson (JObject ((key, value) :: members))
  = check_pypackagejson (JObject members).
Proof.
  intros V D. apply String.eqb_neq in V, D.
  unfold check_pypackagejson. cbn [dict_get]. now rewrite V, D.
Qed.

Lemma descriptor_ignores_other_keys_name :
  "name" <> "venv_dir" /\ "name" <> "dependencies"
  /\ check_pypackagejson
       (JObject [("name", JNumber 3); ("venv_dir", JString ".venv")])
     = Config (JString ".venv") (JArray []).
Proof.
  assert (V : "name" <> "venv_dir") by discriminate.
  assert (D : "name" <> "dependencies") by discriminate.
  split; [exact V|]. split; [exact D|].
  rewrite (@descriptor_ignores_other_keys "name" (JNumber 3)
             [("venv_dir", JString ".venv")] V D).
  reflexivity.
Defined.

(** ** The command line *)

(** X21. Without a command, and with a command that is not known, [main]
    touches nothing: no file is read or written and no process is run.
    It ends with status 0 in both cases, by [exit(0)] in the first and by
    returning in the second. *)
Theorem main_without_command {W} (h : env W) (fuel : nat) (found : bool)
    (w : W) (cmd : string) (rest : list string) :
  cmd <> "init" -> cmd <> "add" -> cmd <> "rm" -> cmd <> "sync" ->
  exec h fuel (main found []) w = {| how := Exits 0; world := w; calls := [] |}
  /\ exec h fuel (main found (cmd :: rest)) w
     = {| how := Returned tt fuel; world := w; calls := [] |}
  /\ exit_status (how (exec h fuel (main found [])  w)) = Some 0%Z
  /\ exit_status (how (exec h fuel (main found (cmd :: rest)) w)) = Some 0%Z.
Proof.
  intros I A R S. apply String.eqb_neq in I, A, R, S.
  assert (E0 : exec h fuel (main found []) w
               = {| how := Exits 0; world := w; calls := [] |})
    by apply (exec_halt h fuel (Exit 0) w).
  assert (E1 : exec h fuel (main found (cmd :: rest)) w
               = {| how := Returned tt fuel; world := w; calls := [] |}).
  { unfold main. rewrite I, A, R, S. apply exec_ret. }
  rewrite E0, E1. auto.
Qed.

Lemma main_without_command_help :
  "help" <> "init" /\ "help" <> "add" /\ "help" <> "rm" /\ "help" <> "sync"
  /\ exec scripted 9 (main false ["help"]) []
     = {| how := Returned tt 9; world := []; calls := [] |}.
Proof.
  assert (I : "help" <> "init") by discriminate.
  assert (A : "help" <> "add") by discriminate.
  assert (R : "help" <> "rm") by discriminate.
  assert (S : "help" <> "sync") by discriminate.
  repeat (split; [assumption|]).
  exact (proj1 (proj2 (@main_without_command _ scripted 9 false [] "help" []
                         I A R S))).
Defined.

(** X22. [cmd_init] wants exactly one argument: with none, or with more
    than one, it stops with [exit(-1)] before it looks at anything. *)
Theorem cmd_init_needs_one_argument {W} (h : env W) (fuel : nat) (found : bool)
    (args : list string) (w : W) :
  List.length args <> 1 ->
  exec h fuel (cmd_init found args) w
  = {| how := Exits (-1); world := w; calls := [] |}.
Proof.
  intros N. unfold cmd_init.
  destruct args as [|a [|b args]]; cbn [List.length Nat.ltb Nat.leb];
    try apply (exec_halt h fuel (Exit (-1)) w).
  now contradiction N.
Qed.

Lemma cmd_init_needs_one_argument_two :
  List.length [".venv"; "extra"] <> 1
  /\ exec scripted 9 (cmd_init false [".venv"; "extra"]) []
     = {| how := Exits (-1); world := []; calls := [] |}.
Proof.
  assert (N : List.length [".venv"; "extra"] <> 1) by discriminate.
  split; [exact N|].
  exact (@cmd_init_needs_one_argument _ scripted 9 false [".venv"; "extra"] [] N).
Defined.

(** ** [cmd_init] and an existing descriptor *)

Lemma then_calls_none {A B W} (g : call -> bool) (r : result A W)
    (f : A -> nat -> W -> result B W) :
  existsb g (calls r) = false ->
  (forall a n w, existsb g (calls (f a n w)) = false) ->
  existsb g (calls (then_ r f)) = false.
Proof.
  intros R F. unfold then_. destruct (how r); cbn [calls]; try assumption.
  now rewrite existsb_app, R, F.
Qed.

Lemma exec_load_calls {W} (h : env W) fuel w :
  existsb is_save (calls (exec h fuel load_pypackagejson w)) = false.
Proof.
  unfold load_pypackagejson. rewrite exec_bind, exec_sys.
  destruct fuel as [|n]; [reflexivity|].
  destruct (h _ LoadJson w) as [[config|] w1]; rewrite then_returned.
  - now rewrite exec_ret.
  - unfold exit. now rewrite exec_halt.
Qed.

(** What [cmd_init] does once the descriptor is there. *)
Lemma init_from_descriptor_no_save {W} (h : env W) fuel w :
  existsb is_save
    (calls (exec h fuel
              (config <- load_pypackagejson ;;
               ensure_venv config true ;; sync_deps config) w)) = false.
Proof.
  rewrite exec_bind. apply then_calls_none; [apply exec_load_calls|].
  intros config n w1. rewrite exec_bind. apply then_calls_none.
  - apply (confined_no_save (config := config)).
    eapply venv_confined, venv_shape.
  - intros _ n2 w2. apply (confined_no_save (config := config)).
    eapply phases_confined, sync_deps_phases.
Qed.

(** X23. [cmd_init] does not overwrite a descriptor: when
    [pypackage.json] is there already, no run of [cmd_init] writes it;
    when it is not, the first thing done is to write the default
    descriptor with the directory given and nothing declared, and it is
    written once. *)
Theorem cmd_init_keeps_descriptor {W} (h : env W) (fuel : nat) (dir : string)
    (w : W) :
  existsb is_save (calls (exec h fuel (cmd_init true [dir]) w)) = false
  /\ exists rest,
       calls (exec h (S fuel) (cmd_init false [dir]) w)
       = CallSave {| venv_dir := dir; dependencies := [] |} :: rest
       /\ existsb is_save rest = false.
Proof.
  unfold cmd_init. cbn [List.length Nat.ltb Nat.leb nth]. split.
  - rewrite exec_bind, exec_ret, then_returned. cbn [calls app].
    apply init_from_descriptor_no_save.
  - rewrite exec_bind, exec_save, then_returned. cbn [calls app].
    eexists. split; [reflexivity|]. apply init_from_descriptor_no_save.
Qed.

(** ** Creating the virtual environment *)

Lemma install_no_venv config t e : install_calls config t e -> existsb is_venv t = false.
Proof. destruct 1; reflexivity. Qed.

Lemma removal_no_venv config t e : removal_calls config t e -> existsb is_venv t = false.
Proof. induction 1; cbn; auto. Qed.

Lemma snapshot_no_venv config t e : snapshot_calls config t e -> existsb is_venv t = false.
Proof. destruct 1; reflexivity. Qed.

Lemma only_position {A} (f : A -> bool) l1 c l2 t1 b t2 :
  l1 ++ c :: l2 = t1 ++ b :: t2 ->
  existsb f t1 = false -> existsb f t2 = false -> f c = true ->
  l1 = t1 /\ c = b /\ l2 = t2.
Proof.
  revert t1. induction l1 as [|x l1 IH]; intros [|y t1] E F1 F2 C; cbn in *.
  - injection E as -> ->. auto.
  - injection E as -> _. apply orb_false_elim in F1. destruct F1. congruence.
  - injection E as -> E. exfalso.
    assert (I : In c t2) by (rewrite <- E; apply in_or_app; right; now left).
    rewrite (existsb_false_In f t2 c F2 I) in C. discriminate.
  - injection E as -> E. apply orb_false_elim in F1. destruct F1 as [_ F1].
    destruct (IH t1 E F1 F2 C) as (-> & -> & ->). auto.
Qed.

(** X24. The virtual environment is created at most once in a run, and
    only right after its directory was looked up and found missing; a
    directory that is there is never created again. *)
Theorem venv_created_only_when_missing {W} (h : env W) (fuel : nat)
    (config : PyPackageJson) (w : W) (l1 l2 : list call) (c : call) :
  calls (exec h fuel (sync_deps config) w) = l1 ++ c :: l2 ->
  is_venv c = true ->
  l1 = [CallIsDir (venv_dir config) false]
  /\ (exists p, c = CallRun (venv_cmd config) false p)
  /\ existsb is_venv l2 = false.
Proof.
  intros E C.
  destruct (sync_deps_phases h fuel config w)
    as [tv ti tl ts ev ei el es V I R S _ _ _].
  assert (N : existsb is_venv (ti ++ tl ++ ts) = false).
  { rewrite !existsb_app.
    now rewrite (install_no_venv I), (removal_no_venv R), (snapshot_no_venv S). }
  destruct V as [ | | |p Z|p Z].
  - assert (X : In c (ti ++ tl ++ ts))
      by (cbn in E; rewrite E; apply in_or_app; right; now left).
    rewrite (existsb_false_In is_venv _ c N X) in C. discriminate.
  - assert (X : In c (CallIsDir (venv_dir config) true :: ti ++ tl ++ ts))
      by (cbn in E; rewrite E; apply in_or_app; right; now left).
    destruct X as [<-|X]; [discriminate C|].
    rewrite (existsb_false_In is_venv _ c N X) in C. discriminate.
  - assert (X : In c (CallIsDir (venv_dir config) false :: ti ++ tl ++ ts))
      by (cbn in E; rewrite E; apply in_or_app; right; now left).
    destruct X as [<-|X]; [discriminate C|].
    rewrite (existsb_false_In is_venv _ c N X) in C. discriminate.
  - symmetry in E.
    destruct (only_position is_venv l1 c l2
                [CallIsDir (venv_dir config) false]
                (CallRun (venv_cmd config) false p) (ti ++ tl ++ ts)
                E eq_refl N C) as (-> & -> & ->).
    eauto.
  - symmetry in E.
    destruct (only_position is_venv l1 c l2
                [CallIsDir (venv_dir config) false]
                (CallRun (venv_cmd config) false p) (ti ++ tl ++ ts)
                E eq_refl N C) as (-> & -> & ->).
    eauto.
Qed.

Lemma venv_created_when_missing_fresh :
  let r := exec unmade 20 (sync_deps missing_project)
             (ok NotCaptured :: missing_script) in
  let c := CallRun (venv_cmd missing_project) false (ok NotCaptured) in
  exists l2,
    calls r = [CallIsDir ".venv" false] ++ c :: l2
    /\ is_venv c = true /\ existsb is_venv l2 = false.
Proof.
  cbv zeta. eexists.
  assert (E : calls (exec unmade 20 (sync_deps missing_project)
                       (ok NotCaptured :: missing_script))
              = [CallIsDir ".venv" false]
                ++ CallRun (venv_cmd missing_project) false (ok NotCaptured)
                   :: skipn 2 (calls (exec unmade 20 (sync_deps missing_project)
                                        (ok NotCaptured :: missing_script))))
    by (vm_compute; reflexivity).
  split; [exact E|]. split; [reflexivity|].
  exact (proj2 (proj2 (@venv_created_only_when_missing _ unmade 20
                         missing_project (ok NotCaptured :: missing_script)
                         _ _ _ E eq_refl))).
Defined.
